(** * findmeblink: the scheduling, codec and animation logic of [code.ts]

    A shallow embedding of the canonical source file [code.ts] together
    with the properties its specification states about it.

    Modelling conventions.
    - A JavaScript [number] that the program computes with is either an
      integer or [NaN]; every integer that occurs (epoch milliseconds,
      table indices, digits, generation counters) is far below 2^53, where
      double arithmetic on integers is exact, so finite numbers are [Z].
    - [Date.now()] is an explicit argument [now].
    - A [while (true)] loop is a fuel-indexed function: [None] means the
      fuel ran out before the loop returned.
    - Strings are [string]s of bytes: a JavaScript string is modelled by
      its UTF-8 encoding. The tables of the program are ASCII; a decoded
      query parameter may hold any bytes, and a character that takes
      several bytes is recognised by its byte sequence. *)

From Stdlib Require Import ZArith List String Ascii Bool Lia.
From Stdlib Require Import DecimalString.
Import ListNotations.

Local Open Scope string_scope.
Local Open Scope Z_scope.

(** ** JavaScript numbers *)

Inductive number : Type :=
| NaN : number
| Int : Z -> number.

(** [a % m] for an integer literal [m]: the sign follows the dividend. *)
Definition js_rem (a : number) (m : Z) : number :=
  match a with
  | Int z => Int (Z.rem z m)
  | NaN => NaN
  end.

(** [a + k] for an integer literal [k]. *)
Definition js_add (a : number) (k : Z) : number :=
  match a with
  | Int z => Int (z + k)
  | NaN => NaN
  end.

(** [a === b] on numbers: [NaN] is equal to nothing, itself included. *)
Definition strict_eq (a b : number) : bool :=
  match a, b with
  | Int x, Int y => x =? y
  | _, _ => false
  end.

(** [a < b] and [a >= b], [a > b] on numbers: every comparison with [NaN] is false. *)
Definition js_lt (a : number) (b : Z) : bool :=
  match a with
  | Int x => x <? b
  | NaN => false
  end.

Definition js_ge (a : number) (b : Z) : bool :=
  match a with
  | Int x => b <=? x
  | NaN => false
  end.

Definition js_gt (a : number) (b : Z) : bool :=
  match a with
  | Int x => b <? x
  | NaN => false
  end.

(** ** Enumerations and constant tables *)

Inductive State : Type := WELCOME | COUNTDOWN | RUNNING.

Inductive Role : Type := INITIATOR | RECEIVER.

Module Duration.
Definition BETWEEN : Z := 100.
Definition DOT : Z := 250.
Definition DASH : Z := 750.
Definition SPACE : Z := 1000.
End Duration.

Definition PATTERNS : list string :=
  [ "..-..-.-..";
    ".-..-..-..";
    "...-..-.-.";
    ".-...-.-..";
    "-.-.-.-.";
    ".-.-.-.-";
    "-..-.-.-";
    "..-.-.--";
    "-----.";
    "----.-" ].

Definition COLORS : list string :=
  [ "--color-secondary";
    "--color-accent";
    "--color-info";
    "--color-success";
    "--color-warning";
    "--color-error" ].

(** ** ScheduleCalculator: [getNextStartTime] *)

(** The test of the loop body: [lastDigit === digit1 || lastDigit === digit2]. *)
Definition ends_in (digit1 digit2 : number) (candidateSecond : Z) : bool :=
  let lastDigit := Int (Z.rem candidateSecond 10) in
  strict_eq lastDigit digit1 || strict_eq lastDigit digit2.

(** The [while (true)] loop; [fuel] bounds the number of candidates examined. *)
Fixpoint search (fuel : nat) (digit1 digit2 : number) (candidateSecond : Z)
  : option Z :=
  match fuel with
  | O => None
  | S fuel' =>
      if ends_in digit1 digit2 candidateSecond
      then Some (candidateSecond * 1000)
      else search fuel' digit1 digit2 (candidateSecond + 1)
  end.

Definition getNextStartTime (fuel : nat) (now : Z) (digit : number) : option Z :=
  let currentSecond := now / 1000 in
  let digit1 := js_rem digit 10 in
  let digit2 := js_rem (js_add digit 5) 10 in
  let candidateSecond := currentSecond + 1 in
  search fuel digit1 digit2 candidateSecond.

(** The last decimal digit of an epoch second, as the specification speaks of it. *)
Definition last_digit (second : Z) : Z := second mod 10.

(** The specification's target set: last digit [d] or [(d + 5) mod 10]. *)
Definition digit_matches (d : Z) (second : Z) : Prop :=
  last_digit second = d \/ last_digit second = (d + 5) mod 10.

(** An instant whose epoch second is in the target set. *)
Definition on_schedule (d : Z) (instant : Z) : Prop :=
  digit_matches d (instant / 1000).

(** The start of the next whole second after [now]. *)
Definition next_whole_second (now : Z) : Z := (now / 1000 + 1) * 1000.

(** [r] is the smallest on-schedule instant strictly later than the start
    of the next whole second. *)
Definition earliest_strictly_after (d now r : Z) : Prop :=
  next_whole_second now < r /\ on_schedule d r /\
  forall i, next_whole_second now < i -> on_schedule d i -> r <= i.

(** [r] is the smallest on-schedule instant at or after the start of the
    next whole second. *)
Definition earliest_from (d now r : Z) : Prop :=
  next_whole_second now <= r /\ on_schedule d r /\
  forall i, next_whole_second now <= i -> on_schedule d i -> r <= i.

(** ** Configuration records

    TypeScript's field types are erased at run time: a table read at an
    index that is out of range or [NaN] yields [undefined], so a color or
    pattern field is an [option string] ([None] is [undefined]) and
    [timeOffset] is a [number]. *)

Record BlinkConfig : Type := {
  color1 : option string;
  color2 : option string;
  pattern : option string;
  timeOffset : number
}.

Record ColorPair : Type := {
  pair_color1 : option string;
  pair_color2 : option string
}.

(** ** Library functions the codec relies on *)

Definition opt_string_eqb (a b : option string) : bool :=
  match a, b with
  | Some x, Some y => String.eqb x y
  | None, None => true
  | _, _ => false
  end.

(** [xs[n]]: [undefined] outside the table and at [NaN]. *)
Definition array_get (xs : list string) (n : number) : option string :=
  match n with
  | Int z => if z <? 0 then None else nth_error xs (Z.to_nat z)
  | NaN => None
  end.

(** [xs.indexOf(v)]: the first position of [v], or [-1]. *)
Fixpoint indexOf_from (xs : list string) (v : string) (i : Z) : Z :=
  match xs with
  | [] => -1
  | x :: rest => if String.eqb x v then i else indexOf_from rest v (i + 1)
  end.

Definition indexOf (xs : list string) (v : option string) : Z :=
  match v with
  | Some s => indexOf_from xs s 0
  | None => -1
  end.

(** [n.toString()] for the integers and the [NaN] that reach it. *)
Definition toString (n : number) : string :=
  match n with
  | Int z => NilZero.string_of_int (Z.to_int z)
  | NaN => "NaN"
  end.

Definition code (c : ascii) : N := N_of_ascii c.

Definition in_range (lo hi : N) (c : ascii) : bool :=
  ((lo <=? code c) && (code c <=? hi))%N.

(** Value of a hexadecimal digit. *)
Definition hex_value (c : ascii) : option Z :=
  if in_range 48 57 c then Some (Z.of_N (code c) - 48)
  else if in_range 97 102 c then Some (Z.of_N (code c) - 87)
  else if in_range 65 70 c then Some (Z.of_N (code c) - 55)
  else None.

Definition digit_value (radix : Z) (c : ascii) : option Z :=
  match hex_value c with
  | Some v => if v <? radix then Some v else None
  | None => None
  end.

(** White space skipped by [parseInt] that is one byte long: TAB, LF, VT,
    FF, CR, SP. *)
Definition is_white_space (c : ascii) : bool :=
  in_range 9 13 c || (code c =? 32)%N.

(** White space that is two bytes long in UTF-8: U+00A0 (C2 A0). *)
Definition is_white_space2 (c1 c2 : ascii) : bool :=
  ((code c1 =? 194) && (code c2 =? 160))%N.

(** White space that is three bytes long in UTF-8: U+1680 (E1 9A 80),
    U+2000..U+200A (E2 80 80..8A), U+2028 and U+2029 (E2 80 A8, A9),
    U+202F (E2 80 AF), U+205F (E2 81 9F), U+3000 (E3 80 80) and
    U+FEFF (EF BB BF). *)
Definition is_white_space3 (c1 c2 c3 : ascii) : bool :=
  ((code c1 =? 225) && (code c2 =? 154) && (code c3 =? 128))%N
  || ((code c1 =? 226) && (code c2 =? 128)
      && (in_range 128 138 c3 || (code c3 =? 168) || (code c3 =? 169)
          || (code c3 =? 175)))%N
  || ((code c1 =? 226) && (code c2 =? 129) && (code c3 =? 159))%N
  || ((code c1 =? 227) && (code c2 =? 128) && (code c3 =? 128))%N
  || ((code c1 =? 239) && (code c2 =? 187) && (code c3 =? 191))%N.

(** The string without its leading white space and line terminators
    ([StrWhiteSpaceChar] of ECMAScript), each taken in its UTF-8 encoding. *)
Fixpoint trim_start (s : string) : string :=
  match s with
  | String c1 rest1 =>
      if is_white_space c1 then trim_start rest1
      else
        match rest1 with
        | String c2 rest2 =>
            if is_white_space2 c1 c2 then trim_start rest2
            else
              match rest2 with
              | String c3 rest3 =>
                  if is_white_space3 c1 c2 c3 then trim_start rest3 else s
              | EmptyString => s
              end
        | EmptyString => s
        end
  | EmptyString => s
  end.

(** The longest prefix of digits in [radix]; [None] when it is empty. *)
Fixpoint parse_digits (radix : Z) (s : string) (acc : option Z) : option Z :=
  match s with
  | String c rest =>
      match digit_value radix c with
      | Some v =>
          parse_digits radix rest
            (Some (match acc with Some a => a * radix + v | None => v end))
      | None => acc
      end
  | EmptyString => acc
  end.

(** [parseInt(s)] with no radix argument: leading white space, an optional
    sign, an optional [0x] prefix selecting radix 16, then the longest run
    of digits; [NaN] when that run is empty. *)
Definition parseInt (s : string) : number :=
  let s1 := trim_start s in
  let '(sign, s2) :=
    match s1 with
    | String "-"%char rest => (-1, rest)
    | String "+"%char rest => (1, rest)
    | _ => (1, s1)
    end in
  let '(radix, s3) :=
    match s2 with
    | String "0"%char (String x rest) =>
        if Ascii.eqb x "x"%char || Ascii.eqb x "X"%char then (16, rest) else (10, s2)
    | _ => (10, s2)
    end in
  match parse_digits radix s3 None with
  | Some v => Int (sign * v)
  | None => NaN
  end.

(** *** [URLSearchParams] *)

Definition URLSearchParams : Type := list (string * string).

Fixpoint split_on (sep : ascii) (s : string) : list string :=
  match s with
  | EmptyString => [EmptyString]
  | String c rest =>
      if Ascii.eqb c sep then EmptyString :: split_on sep rest
      else match split_on sep rest with
           | [] => [String c EmptyString]
           | w :: ws => String c w :: ws
           end
  end.

(** Name and value of one [name=value] sequence, cut at the first [=]. *)
Fixpoint cut_at_equals (s : string) : string * string :=
  match s with
  | EmptyString => (EmptyString, EmptyString)
  | String c rest =>
      if Ascii.eqb c "="%char then (EmptyString, rest)
      else let '(name, value) := cut_at_equals rest in (String c name, value)
  end.

Fixpoint plus_to_space (s : string) : string :=
  match s with
  | EmptyString => EmptyString
  | String c rest =>
      String (if Ascii.eqb c "+"%char then " "%char else c) (plus_to_space rest)
  end.

Fixpoint percent_decode (s : string) : string :=
  match s with
  | EmptyString => EmptyString
  | String c rest =>
      if Ascii.eqb c "%"%char then
        match rest with
        | String h (String l rest') =>
            match hex_value h, hex_value l with
            | Some a, Some b =>
                String (ascii_of_N (Z.to_N (16 * a + b))) (percent_decode rest')
            | _, _ => String c (percent_decode rest)
            end
        | _ => String c (percent_decode rest)
        end
      else String c (percent_decode rest)
  end.

Definition is_empty (s : string) : bool :=
  match s with EmptyString => true | _ => false end.

(** [new URLSearchParams(search)]: a leading [?] is dropped, the rest is
    parsed as [application/x-www-form-urlencoded]. *)
Definition URLSearchParams_of_string (init : string) : URLSearchParams :=
  let query := match init with String "?"%char rest => rest | _ => init end in
  map (fun sequence =>
         let '(name, value) := cut_at_equals sequence in
         (percent_decode (plus_to_space name), percent_decode (plus_to_space value)))
      (filter (fun sequence => negb (is_empty sequence)) (split_on "&"%char query)).

Definition has (params : URLSearchParams) (name : string) : bool :=
  existsb (fun p => String.eqb (fst p) name) params.

(** [params.get(name)]: the first value of [name], or [null]. *)
Fixpoint get (params : URLSearchParams) (name : string) : option string :=
  match params with
  | [] => None
  | (n, v) :: rest => if String.eqb n name then Some v else get rest name
  end.

(** [get(name)!] handed to [parseInt]: a [null] would be read as the text [null]. *)
Definition non_null (v : option string) : string :=
  match v with Some s => s | None => "null" end.

Definition hex_digit (v : N) : ascii :=
  ascii_of_N (if (v <? 10)%N then 48 + v else 55 + v)%N.

(** The urlencoded byte serializer: alphanumerics and [*-._] stay, a space
    becomes [+], every other byte is percent-encoded. *)
Definition serialize_byte (c : ascii) : string :=
  if (code c =? 32)%N then "+"
  else if in_range 48 57 c || in_range 65 90 c || in_range 97 122 c
          || (code c =? 42)%N || (code c =? 45)%N || (code c =? 46)%N
          || (code c =? 95)%N
  then String c EmptyString
  else String "%"%char
         (String (hex_digit (code c / 16)) (String (hex_digit (code c mod 16)) EmptyString)).

Fixpoint serialize_bytes (s : string) : string :=
  match s with
  | EmptyString => EmptyString
  | String c rest => serialize_byte c ++ serialize_bytes rest
  end.

(** [params.toString()]. *)
Fixpoint URLSearchParams_toString (params : URLSearchParams) : string :=
  match params with
  | [] => EmptyString
  | [(n, v)] => serialize_bytes n ++ "=" ++ serialize_bytes v
  | (n, v) :: rest =>
      serialize_bytes n ++ "=" ++ serialize_bytes v ++ "&" ++ URLSearchParams_toString rest
  end.

(** ** ConfigCodec: [generateShareUrl] and [decodeUrl] *)

(** The [URLSearchParams] object that [generateShareUrl] builds. *)
Definition share_params (config : BlinkConfig) : URLSearchParams :=
  [ ("c1", toString (Int (indexOf COLORS (color1 config))));
    ("c2", toString (Int (indexOf COLORS (color2 config))));
    ("p", toString (Int (indexOf PATTERNS (pattern config))));
    ("t", toString (timeOffset config)) ].

(** [origin] and [pathname] are those of [window.location]; the global
    [blinkConfig] is an argument. [None] is the [undefined] of the early return. *)
Definition generateShareUrl (origin pathname : string) (blinkConfig : option BlinkConfig)
  : option string :=
  match blinkConfig with
  | None => None
  | Some config =>
      Some (origin ++ pathname ++ "?" ++ URLSearchParams_toString (share_params config))
  end.

(** [search] is [window.location.search]; [None] is [null]. *)
Definition decodeUrl (search : string) : option BlinkConfig :=
  let params := URLSearchParams_of_string search in
  if negb (has params "c1") || negb (has params "c2")
     || negb (has params "p") || negb (has params "t")
  then None
  else
    let color1Index := parseInt (non_null (get params "c1")) in
    let color2Index := parseInt (non_null (get params "c2")) in
    let patternIndex := parseInt (non_null (get params "p")) in
    let timeOffset := parseInt (non_null (get params "t")) in
    if js_lt color1Index 0 || js_ge color1Index (Z.of_nat (List.length COLORS))
       || js_lt color2Index 0 || js_ge color2Index (Z.of_nat (List.length COLORS))
       || js_lt patternIndex 0 || js_ge patternIndex (Z.of_nat (List.length PATTERNS))
       || js_lt timeOffset 0 || js_gt timeOffset 9
    then None
    else
      Some {| color1 := array_get COLORS color1Index;
              color2 := array_get COLORS color2Index;
              pattern := array_get PATTERNS patternIndex;
              timeOffset := timeOffset |}.

(** [getRandomColors]: [draw1] and [draw2] are the values of the two
    [Math.floor(Math.random() * length)] expressions. *)
Definition getRandomColors (draw1 draw2 : nat) : ColorPair :=
  let color1 := nth_error COLORS draw1 in
  let remaining := filter (fun c => negb (opt_string_eqb (Some c) color1)) COLORS in
  let color2 := nth_error remaining draw2 in
  {| pair_color1 := color1; pair_color2 := color2 |}.

(** [getRandomPattern]. *)
Definition getRandomPattern (draw : nat) : option string := nth_error PATTERNS draw.

(** ** Session state: the module-level variables and the page

    The globals that [updateUI] and [runPattern] read or write, and the
    parts of the page they paint. *)

Record World : Type := {
  currentState : State;
  isBackgroundFlashing : bool;
  shouldPauseBackground : bool;
  countdownIntervalId : option Z;
  currentAnimationId : Z;
  intervals : list Z;                 (* live [setInterval] handles *)
  backgroundColor : string;           (* [document.body.style.backgroundColor] *)
  phoneHolder : option string;        (* color of [#phoneHolder]; [None]: no such element *)
  playButton_hidden : bool;
  cancelButton_hidden : bool;
  countdownText_hidden : bool;
  instructions_hidden : bool;
  countdownText_content : string
}.

(** The page as it is before any script runs. *)
Record Page : Type := {
  page_backgroundColor : string;
  page_phoneHolder : option string;
  page_playButton_hidden : bool;
  page_cancelButton_hidden : bool;
  page_countdownText_hidden : bool;
  page_instructions_hidden : bool;
  page_countdownText_content : string
}.

(** The initializers of the module-level [let]s. *)
Definition initial_world (page : Page) : World :=
  {| currentState := WELCOME;
     isBackgroundFlashing := false;
     shouldPauseBackground := true;
     countdownIntervalId := None;
     currentAnimationId := 0;
     intervals := [];
     backgroundColor := page_backgroundColor page;
     phoneHolder := page_phoneHolder page;
     playButton_hidden := page_playButton_hidden page;
     cancelButton_hidden := page_cancelButton_hidden page;
     countdownText_hidden := page_countdownText_hidden page;
     instructions_hidden := page_instructions_hidden page;
     countdownText_content := page_countdownText_content page |}.

Definition set_currentState (v : State) (w : World) : World :=
  {| currentState := v;
     isBackgroundFlashing := isBackgroundFlashing w;
     shouldPauseBackground := shouldPauseBackground w;
     countdownIntervalId := countdownIntervalId w;
     currentAnimationId := currentAnimationId w;
     intervals := intervals w;
     backgroundColor := backgroundColor w;
     phoneHolder := phoneHolder w;
     playButton_hidden := playButton_hidden w;
     cancelButton_hidden := cancelButton_hidden w;
     countdownText_hidden := countdownText_hidden w;
     instructions_hidden := instructions_hidden w;
     countdownText_content := countdownText_content w |}.

Definition set_isBackgroundFlashing (v : bool) (w : World) : World :=
  {| currentState := currentState w;
     isBackgroundFlashing := v;
     shouldPauseBackground := shouldPauseBackground w;
     countdownIntervalId := countdownIntervalId w;
     currentAnimationId := currentAnimationId w;
     intervals := intervals w;
     backgroundColor := backgroundColor w;
     phoneHolder := phoneHolder w;
     playButton_hidden := playButton_hidden w;
     cancelButton_hidden := cancelButton_hidden w;
     countdownText_hidden := countdownText_hidden w;
     instructions_hidden := instructions_hidden w;
     countdownText_content := countdownText_content w |}.

Definition set_shouldPauseBackground (v : bool) (w : World) : World :=
  {| currentState := currentState w;
     isBackgroundFlashing := isBackgroundFlashing w;
     shouldPauseBackground := v;
     countdownIntervalId := countdownIntervalId w;
     currentAnimationId := currentAnimationId w;
     intervals := intervals w;
     backgroundColor := backgroundColor w;
     phoneHolder := phoneHolder w;
     playButton_hidden := playButton_hidden w;
     cancelButton_hidden := cancelButton_hidden w;
     countdownText_hidden := countdownText_hidden w;
     instructions_hidden := instructions_hidden w;
     countdownText_content := countdownText_content w |}.

Definition set_backgroundColor (v : string) (w : World) : World :=
  {| currentState := currentState w;
     isBackgroundFlashing := isBackgroundFlashing w;
     shouldPauseBackground := shouldPauseBackground w;
     countdownIntervalId := countdownIntervalId w;
     currentAnimationId := currentAnimationId w;
     intervals := intervals w;
     backgroundColor := v;
     phoneHolder := phoneHolder w;
     playButton_hidden := playButton_hidden w;
     cancelButton_hidden := cancelButton_hidden w;
     countdownText_hidden := countdownText_hidden w;
     instructions_hidden := instructions_hidden w;
     countdownText_content := countdownText_content w |}.

Definition set_phoneHolder (v : option string) (w : World) : World :=
  {| currentState := currentState w;
     isBackgroundFlashing := isBackgroundFlashing w;
     shouldPauseBackground := shouldPauseBackground w;
     countdownIntervalId := countdownIntervalId w;
     currentAnimationId := currentAnimationId w;
     intervals := intervals w;
     backgroundColor := backgroundColor w;
     phoneHolder := v;
     playButton_hidden := playButton_hidden w;
     cancelButton_hidden := cancelButton_hidden w;
     countdownText_hidden := countdownText_hidden w;
     instructions_hidden := instructions_hidden w;
     countdownText_content := countdownText_content w |}.

(** [clearInterval(id); countdownIntervalId = null]. *)
Definition clear_countdown (id : Z) (w : World) : World :=
  {| currentState := currentState w;
     isBackgroundFlashing := isBackgroundFlashing w;
     shouldPauseBackground := shouldPauseBackground w;
     countdownIntervalId := None;
     currentAnimationId := currentAnimationId w;
     intervals := filter (fun h => negb (h =? id)) (intervals w);
     backgroundColor := backgroundColor w;
     phoneHolder := phoneHolder w;
     playButton_hidden := playButton_hidden w;
     cancelButton_hidden := cancelButton_hidden w;
     countdownText_hidden := countdownText_hidden w;
     instructions_hidden := instructions_hidden w;
     countdownText_content := countdownText_content w |}.

(** Visibility of the four controls and the countdown text, set together. *)
Definition set_controls (play cancel countdown instr : bool) (text : string) (w : World)
  : World :=
  {| currentState := currentState w;
     isBackgroundFlashing := isBackgroundFlashing w;
     shouldPauseBackground := shouldPauseBackground w;
     countdownIntervalId := countdownIntervalId w;
     currentAnimationId := currentAnimationId w;
     intervals := intervals w;
     backgroundColor := backgroundColor w;
     phoneHolder := phoneHolder w;
     playButton_hidden := play;
     cancelButton_hidden := cancel;
     countdownText_hidden := countdown;
     instructions_hidden := instr;
     countdownText_content := text |}.

Section Presentation.

(** [getComputedStyle(document.documentElement).getPropertyValue]: the theme lookup. *)
Variable theme : string -> string.

Definition getPropertyValue (name : option string) : string :=
  theme (match name with Some s => s | None => "undefined" end).

Definition updateUI (w : World) : World :=
  let defaultColor := getPropertyValue (Some "--color-base-200") in
  (* Clear countdown if exists: [null] and [0] are falsy *)
  let w :=
    match countdownIntervalId w with
    | Some id => if id =? 0 then w else clear_countdown id w
    | None => w
    end in
  match currentState w with
  | WELCOME =>
      let w := set_controls false true false false "&nbsp;" w in
      let w := set_shouldPauseBackground true w in
      let w := set_isBackgroundFlashing false w in
      set_backgroundColor defaultColor w
  | COUNTDOWN =>
      let w := set_controls true false false true "Starting in 3" w in
      set_shouldPauseBackground false w
  | RUNNING =>
      let w := set_controls true false true true (countdownText_content w) w in
      set_shouldPauseBackground false w
  end.

Definition setState (newState : State) (w : World) : World :=
  updateUI (set_currentState newState w).

(** ** AnimationEngine: [animateBackgroundColor] and its [runPattern]

    The closure that [animateBackgroundColor] creates: its arguments and
    the three colors it resolves once. *)
Record Animation : Type := {
  config : BlinkConfig;
  startTime : Z;
  animationId : Z;
  color1Value : string;
  color2Value : string;
  defaultColor : string
}.

Definition animateBackgroundColor (config : BlinkConfig) (startTime animationId : Z)
  : Animation :=
  {| config := config;
     startTime := startTime;
     animationId := animationId;
     color1Value := getPropertyValue (color1 config);
     color2Value := getPropertyValue (color2 config);
     defaultColor := getPropertyValue (Some "--color-base-200") |}.

(** Where a suspended [runPattern] continues when its timer fires. *)
Inductive Cont : Type :=
| AtEntry                                   (* [runPattern()] is invoked *)
| AfterStartWait                            (* after the wait for [startTime] *)
| AfterStep (i : nat) (currentColor : string). (* after the wait of step [i] *)

(** How a synchronous stretch of [runPattern] ends. *)
Inductive Outcome : Type :=
| Await (ms : Z) (k : Cont)   (* suspended on [setTimeout(resolve, ms)] *)
| Call (k : Cont)             (* [runPattern()] invoked with no wait before it *)
| Return                      (* the invocation is over and nothing is scheduled *)
| Hang                        (* [getNextStartTime] does not return *)
| Throw.                      (* a property of [undefined] is read *)

(** [body.style.backgroundColor = defaultColor; isBackgroundFlashing = false]. *)
Definition reset_background (a : Animation) (w : World) : World :=
  set_isBackgroundFlashing false (set_backgroundColor (defaultColor a) w).

Definition stale (a : Animation) (w : World) : bool :=
  negb (animationId a =? currentAnimationId w).

Definition step_duration (char : option ascii) : Z :=
  match char with
  | Some c =>
      if Ascii.eqb c "."%char then Duration.DOT
      else if Ascii.eqb c "-"%char then Duration.DASH
      else 0
  | None => 0
  end.

(** The [for] loop from its test [i < config.pattern.length] on, and the
  code after it. [fuel] is handed to [getNextStartTime]. The stretch is
  taken to run within one millisecond of the clock: [now] is the value of
  the [Date.now()] inside [getNextStartTime] and of the one read after it.
  In the program the second can be later; if it has reached the next start
  time, [delayUntilNext] is not positive and [runPattern()] is invoked at
  once, the [Call] outcome below. *)
Definition for_loop (fuel : nat) (a : Animation) (now : Z)
           (i : nat) (currentColor : string) (w : World) : World * Outcome :=
  match pattern (config a) with
  | None => (w, Throw)
  | Some p =>
      if (i <? String.length p)%nat then
        if stale a w then (reset_background a w, Return)
        else if shouldPauseBackground w
        then (reset_background a w, Await 100 AtEntry)
        else
          let char := String.get i p in
          let w := set_backgroundColor currentColor w in
          let duration := step_duration char in
          (w, Await duration (AfterStep i currentColor))
      else
        (* Pattern complete *)
        let w := reset_background a w in
        (* Wait for next cycle *)
        match getNextStartTime fuel now (timeOffset (config a)) with
        | None => (w, Hang)
        | Some nextStartTime =>
            let delayUntilNext := nextStartTime - now in
            if delayUntilNext >? 0 then (w, Await delayUntilNext AtEntry)
            else (w, Call AtEntry)
        end
  end.

(** "Start flashing": the three statements before the [for] loop. *)
Definition start_flashing (w : World) : World :=
  let w := set_isBackgroundFlashing true w in
  let w := match phoneHolder w with
           | Some _ => set_phoneHolder (Some "white") w
           | None => w
           end in
  setState RUNNING w.

(** From "Check again after waiting" on. *)
Definition after_start_wait (fuel : nat) (a : Animation) (now : Z) (w : World)
  : World * Outcome :=
  if stale a w || shouldPauseBackground w then
    if shouldPauseBackground w then (w, Await 100 AtEntry) else (w, Return)
  else
    let w := start_flashing w in
    (* Run the pattern *)
    for_loop fuel a now 0 (color1Value a) w.

(** [runPattern] from its first line. *)
Definition runPattern (fuel : nat) (a : Animation) (now : Z) (w : World)
  : World * Outcome :=
  if stale a w then (w, Return)
  else if shouldPauseBackground w then (w, Await 100 AtEntry)
  else
    let waitTime := startTime a - now in
    if waitTime >? 0 then (w, Await waitTime AfterStartWait)
    else after_start_wait fuel a now w.

(** One synchronous stretch: the timer of continuation [k] fires at [now],
    which is also the value of every [Date.now()] read during the stretch. *)
Definition resume (fuel : nat) (a : Animation) (k : Cont) (now : Z) (w : World)
  : World * Outcome :=
  match k with
  | AtEntry => runPattern fuel a now w
  | AfterStartWait => after_start_wait fuel a now w
  | AfterStep i currentColor =>
      let currentColor :=
        if String.eqb currentColor (color1Value a) then color2Value a
        else color1Value a in
      for_loop fuel a now (S i) currentColor w
  end.

(** *** Executions

    Timers are ideal: a wait of [ms] milliseconds that starts at [t] ends
    at [t + max ms 0]. Between two stretches of the loop the rest of the
    program may run: [env t] is what it does to the session state before
    the stretch at instant [t]. *)
Record Event : Type := {
  time : Z;
  before : World;
  after : World
}.

Fixpoint run_with (env : Z -> World -> World) (n fuel : nat) (a : Animation)
         (k : Cont) (now : Z) (w : World) : list Event :=
  match n with
  | O => []
  | S n' =>
      let w0 := env now w in
      let '(w1, outcome) := resume fuel a k now w0 in
      {| time := now; before := w0; after := w1 |} ::
      match outcome with
      | Await ms k' => run_with env n' fuel a k' (now + Z.max ms 0) w1
      | Call k' => run_with env n' fuel a k' now w1
      | Return | Hang | Throw => []
      end
  end.

(** An uninterrupted execution: nothing else touches the session state. *)
Definition run (n fuel : nat) (a : Animation) (k : Cont) (now : Z) (w : World)
  : list Event :=
  run_with (fun _ w => w) n fuel a k now w.

(** The background that is visible at instant [t]: the one left by the
    last stretch that ran at or before [t]. *)
Definition visible_at (trace : list Event) (initially : string) (t : Z) : string :=
  fold_left (fun bg e => if time e <=? t then backgroundColor (after e) else bg)
            trace initially.

End Presentation.

(** ** Statements about the tables and the codec *)

Fixpoint over_dot_dash (s : string) : bool :=
  match s with
  | EmptyString => true
  | String c rest =>
      (Ascii.eqb c "."%char || Ascii.eqb c "-"%char) && over_dot_dash rest
  end.

(** The pattern table has ten entries, each over [{'.', '-'}] and between
    [lo] and [hi] symbols long. *)
Definition pattern_table (lo hi : nat) : Prop :=
  List.length PATTERNS = 10%nat /\
  Forall (fun p => over_dot_dash p = true /\
                   (lo <= String.length p <= hi)%nat) PATTERNS.

(** A valid configuration: two different colors of the color table, a
    pattern of the pattern table, a time offset in 0..9. *)
Definition valid_config (c : BlinkConfig) : Prop :=
  exists a b p t,
    c = {| color1 := Some a; color2 := Some b; pattern := Some p; timeOffset := Int t |} /\
    In a COLORS /\ In b COLORS /\ a <> b /\ In p PATTERNS /\ 0 <= t <= 9.

Definition number_eqb (a b : number) : bool :=
  match a, b with
  | Int x, Int y => x =? y
  | NaN, NaN => true
  | _, _ => false
  end.

Definition config_eqb (a b : BlinkConfig) : bool :=
  opt_string_eqb (color1 a) (color1 b) && opt_string_eqb (color2 a) (color2 b)
  && opt_string_eqb (pattern a) (pattern b) && number_eqb (timeOffset a) (timeOffset b).

(** Every configuration over the two tables and the ten time offsets. *)
Definition table_configs : list BlinkConfig :=
  flat_map (fun a =>
    flat_map (fun b =>
      flat_map (fun p =>
        map (fun t =>
               {| color1 := Some a; color2 := Some b; pattern := Some p;
                  timeOffset := Int t |})
            [0; 1; 2; 3; 4; 5; 6; 7; 8; 9])
        PATTERNS)
      COLORS)
    COLORS.

(** The query string that [generateShareUrl] writes after the [?]. *)
Definition share_query (c : BlinkConfig) : string :=
  URLSearchParams_toString (share_params c).

Definition decodes_to (search : string) (c : BlinkConfig) : bool :=
  match decodeUrl search with
  | Some c' => config_eqb c' c
  | None => false
  end.

Definition decodes_back (c : BlinkConfig) : bool :=
  decodes_to ("?" ++ share_query c) c && decodes_to (share_query c) c.

(** [window.location.search] of a page loaded from [href]: the part from
    the first [?] up to the fragment, empty when there is nothing after
    the [?]. *)
Fixpoint until_hash (s : string) : string :=
  match s with
  | EmptyString => EmptyString
  | String c rest =>
      if Ascii.eqb c "#"%char then EmptyString else String c (until_hash rest)
  end.

Fixpoint from_question (s : string) : string :=
  match s with
  | EmptyString => EmptyString
  | String c rest => if Ascii.eqb c "?"%char then s else from_question rest
  end.

Definition location_search (href : string) : string :=
  let q := from_question (until_hash href) in
  if String.eqb q "?" then EmptyString else q.

Fixpoint mentions (c : ascii) (s : string) : bool :=
  match s with
  | EmptyString => false
  | String c' rest => Ascii.eqb c' c || mentions c rest
  end.

(** The pause flag agrees with the session phase. *)
Definition pause_tracks_phase (w : World) : Prop :=
  shouldPauseBackground w = true <-> currentState w = WELCOME.

(** An index that passes the validation of [decodeUrl]: in range, or [NaN]. *)
Definition passes_validation (n : number) (lo hi : Z) : Prop :=
  match n with
  | Int z => lo <= z < hi
  | NaN => True
  end.

(** ** Statements about the animation *)

(** What an execution paints, and when. *)
Definition paints (trace : list Event) : list (Z * string) :=
  map (fun e => (time e, backgroundColor (after e))) trace.

(** The timeline that the specification gives for the pattern ["..-"]
    started at [T]: [c1] over [[T, T+250)], [c2] over [[T+250, T+1000)],
    the neutral color at [T+1000]. *)
Definition timeline_as_stated (trace : list Event) (initially : string) (T : Z)
           (c1 c2 neutral : string) : Prop :=
  (forall t, T <= t < T + 250 -> visible_at trace initially t = c1) /\
  (forall t, T + 250 <= t < T + 1000 -> visible_at trace initially t = c2) /\
  visible_at trace initially (T + 1000) = neutral.

(** The timeline of the code: [c1] over [[T, T+250)], [c2] over
    [[T+250, T+500)], [c1] over [[T+500, T+1250)], the neutral color at
    [T+1250]. *)
Definition timeline (trace : list Event) (initially : string) (T : Z)
           (c1 c2 neutral : string) : Prop :=
  (forall t, T <= t < T + 250 -> visible_at trace initially t = c1) /\
  (forall t, T + 250 <= t < T + 500 -> visible_at trace initially t = c2) /\
  (forall t, T + 500 <= t < T + 1250 -> visible_at trace initially t = c1) /\
  visible_at trace initially (T + 1250) = neutral.

(** A stretch of a stale loop that leaves the background as it found it. *)
Definition keeps_background (theme : string -> string) (fuel : nat) (a : Animation)
           (k : Cont) (now : Z) (w : World) : Prop :=
  stale a w = true ->
  backgroundColor (fst (resume theme fuel a k now w)) = backgroundColor w.

(** A stretch that wrote nothing, or only the reset to the neutral color. *)
Definition at_most_reset (a : Animation) (e : Event) : Prop :=
  after e = before e \/ after e = reset_background a (before e).

(** A stretch that wrote nothing at all. *)
Definition writes_nothing (e : Event) : Prop := after e = before e.

(** A stretch that left the phase alone and painted, if anything, only the
    neutral color of [a]. *)
Definition never_flashes (a : Animation) (e : Event) : Prop :=
  currentState (after e) = currentState (before e) /\
  (backgroundColor (after e) = backgroundColor (before e) \/
   backgroundColor (after e) = defaultColor a).

(** *** A concrete session for the examples *)

(** A theme that resolves every variable to its own name. *)
Definition example_theme (name : string) : string := name.

Definition example_config : BlinkConfig :=
  {| color1 := Some "--color-info";
     color2 := Some "--color-error";
     pattern := Some "..-";
     timeOffset := Int 3 |}.

Definition example_page : Page :=
  {| page_backgroundColor := "--color-base-200";
     page_phoneHolder := Some "--color-accent";
     page_playButton_hidden := false;
     page_cancelButton_hidden := true;
     page_countdownText_hidden := false;
     page_instructions_hidden := false;
     page_countdownText_content := "&nbsp;" |}.

(** Generation 1 of the animation, scheduled for instant 10000. *)
Definition example_animation : Animation :=
  animateBackgroundColor example_theme example_config 10000 1.

Definition set_currentAnimationId (v : Z) (w : World) : World :=
  {| currentState := currentState w;
     isBackgroundFlashing := isBackgroundFlashing w;
     shouldPauseBackground := shouldPauseBackground w;
     countdownIntervalId := countdownIntervalId w;
     currentAnimationId := v;
     intervals := intervals w;
     backgroundColor := backgroundColor w;
     phoneHolder := phoneHolder w;
     playButton_hidden := playButton_hidden w;
     cancelButton_hidden := cancelButton_hidden w;
     countdownText_hidden := countdownText_hidden w;
     instructions_hidden := instructions_hidden w;
     countdownText_content := countdownText_content w |}.

(** The session after Play: phase [COUNTDOWN], generation 1. *)
Definition example_countdown : World :=
  set_currentAnimationId 1 (setState example_theme COUNTDOWN (initial_world example_page)).

(** Generation 1 of an animation of the first table pattern. *)
Definition example_long_animation : Animation :=
  animateBackgroundColor example_theme
    {| color1 := Some "--color-info";
       color2 := Some "--color-error";
       pattern := nth_error PATTERNS 0;
       timeOffset := Int 3 |}
    10000 1.

(** The session at instant 11250 when, during the dash that generation 1
    began at 10500, the user cancelled and pressed Play again: generation
    2 is live, started flashing at 11000 and has painted its first color. *)
Definition example_superseded : World :=
  set_backgroundColor "--color-success"
    (start_flashing example_theme (set_currentAnimationId 2 example_countdown)).

(** A configuration as [handlePlayClick] may generate it. *)
Definition example_valid_config : BlinkConfig :=
  {| color1 := Some "--color-info";
     color2 := Some "--color-error";
     pattern := Some "-.-.-.-.";
     timeOffset := Int 3 |}.

(** The object literal of [handlePlayClick]: [color1] is taken from one
    call of [getRandomColors] and [color2] from another; [drawT] is the
    value of [Math.floor(Math.random() * 5)]. *)
Definition new_blinkConfig (draw1 draw2 draw3 draw4 drawP drawT : nat) : BlinkConfig :=
  {| color1 := pair_color1 (getRandomColors draw1 draw2);
     color2 := pair_color2 (getRandomColors draw3 draw4);
     pattern := getRandomPattern drawP;
     timeOffset := Int (Z.of_nat drawT) |}.

(** ** The countdown ticker: [startCountdown] and its [updateCountdown] *)

Definition set_intervals (v : list Z) (w : World) : World :=
  {| currentState := currentState w;
     isBackgroundFlashing := isBackgroundFlashing w;
     shouldPauseBackground := shouldPauseBackground w;
     countdownIntervalId := countdownIntervalId w;
     currentAnimationId := currentAnimationId w;
     intervals := v;
     backgroundColor := backgroundColor w;
     phoneHolder := phoneHolder w;
     playButton_hidden := playButton_hidden w;
     cancelButton_hidden := cancelButton_hidden w;
     countdownText_hidden := countdownText_hidden w;
     instructions_hidden := instructions_hidden w;
     countdownText_content := countdownText_content w |}.

Definition set_countdownIntervalId (v : option Z) (w : World) : World :=
  {| currentState := currentState w;
     isBackgroundFlashing := isBackgroundFlashing w;
     shouldPauseBackground := shouldPauseBackground w;
     countdownIntervalId := v;
     currentAnimationId := currentAnimationId w;
     intervals := intervals w;
     backgroundColor := backgroundColor w;
     phoneHolder := phoneHolder w;
     playButton_hidden := playButton_hidden w;
     cancelButton_hidden := cancelButton_hidden w;
     countdownText_hidden := countdownText_hidden w;
     instructions_hidden := instructions_hidden w;
     countdownText_content := countdownText_content w |}.

Definition set_countdownText_content (v : string) (w : World) : World :=
  {| currentState := currentState w;
     isBackgroundFlashing := isBackgroundFlashing w;
     shouldPauseBackground := shouldPauseBackground w;
     countdownIntervalId := countdownIntervalId w;
     currentAnimationId := currentAnimationId w;
     intervals := intervals w;
     backgroundColor := backgroundColor w;
     phoneHolder := phoneHolder w;
     playButton_hidden := playButton_hidden w;
     cancelButton_hidden := cancelButton_hidden w;
     countdownText_hidden := countdownText_hidden w;
     instructions_hidden := instructions_hidden w;
     countdownText_content := v |}.

(** [clearInterval(id)]: the handle is no longer live. *)
Definition clearInterval (id : Z) (w : World) : World :=
  set_intervals (filter (fun h => negb (h =? id)) (intervals w)) w.

(** [setInterval(callback, ms)], [handle] being the id the browser returns. *)
Definition setInterval (handle : Z) (w : World) : World :=
  set_intervals (intervals w ++ [handle]) w.

(** [Math.ceil(a / b)] on integers, [b] positive. *)
Definition ceil_div (a b : Z) : Z := - ((- a) / b).

(** The closure [updateCountdown] of [startCountdown(startTime)], run at [now]. *)
Definition updateCountdown (startTime now : Z) (w : World) : World :=
  let timeLeft := startTime - now in
  if timeLeft <=? 0 then
    let w := match countdownIntervalId w with
             | Some id => clearInterval id w
             | None => w
             end in
    set_countdownIntervalId None w
  else
    let secondsLeft := ceil_div timeLeft 1000 in
    set_countdownText_content ("Starting in " ++ toString (Int secondsLeft)) w.

Definition startCountdown (startTime now handle : Z) (w : World) : World :=
  (* Clear any existing countdown *)
  let w := match countdownIntervalId w with
           | Some id => clearInterval id w
           | None => w
           end in
  (* Update immediately *)
  let w := updateCountdown startTime now w in
  (* Then update every 100ms *)
  set_countdownIntervalId (Some handle) (setInterval handle w).

(** One firing of the interval [handle] of [startCountdown(startTime)]: the
    callback runs only while the handle is live. *)
Definition countdown_tick (handle startTime now : Z) (w : World) : World :=
  if existsb (Z.eqb handle) (intervals w) then updateCountdown startTime now w else w.

(** ** The session: configuration, role and the click handlers *)

(** What [instructions.innerHTML] holds: the markup of the page as loaded,
    one of the two [INSTRUCTIONS] texts, or the share fallback built around
    a URL. *)
Inductive Instructions : Type :=
| InstructionsOfPage
| InstructionsInitiator
| InstructionsReceiver
| InstructionsShareFallback (urlToCopy : option string) (hasClipboard : bool).

Record Session : Type := {
  world : World;
  blinkConfig : option BlinkConfig;
  currentRole : Role;
  session_startTime : option Z;     (* the global [startTime], unset at first *)
  instructions : Instructions
}.

(** What the handlers take from the browser: the location, the share and
    clipboard capabilities, and whether the user completes the share. *)
Record Browser : Type := {
  browser_origin : string;
  browser_pathname : string;
  browser_canShare : bool;          (* [navigator.share] exists *)
  browser_shareResolves : bool;     (* the promise of [navigator.share] resolves *)
  browser_hasClipboard : bool       (* [navigator.clipboard] exists *)
}.

(** The six random draws of [handlePlayClick], each the value of its
    [Math.floor(Math.random() * n)]. *)
Record Draws : Type := {
  draw_color1 : nat * nat;          (* of the [getRandomColors()] read for [color1] *)
  draw_color2 : nat * nat;          (* of the [getRandomColors()] read for [color2] *)
  draw_pattern : nat;
  draw_offset : nat
}.

Definition drawn_config (dr : Draws) : BlinkConfig :=
  new_blinkConfig (fst (draw_color1 dr)) (snd (draw_color1 dr))
                  (fst (draw_color2 dr)) (snd (draw_color2 dr))
                  (draw_pattern dr) (draw_offset dr).

(** A string that is neither [undefined] nor empty. *)
Definition truthy (url : option string) : bool :=
  match url with
  | Some (String _ _) => true
  | _ => false
  end.

(** [tryShare(url)]: [true] only if sharing exists, there is a URL and the
    share completes; a rejected share is caught and gives [false]. *)
Definition tryShare (b : Browser) (url : option string) : bool :=
  if browser_canShare b && truthy url then browser_shareResolves b else false.

Definition set_world (v : World) (s : Session) : Session :=
  {| world := v;
     blinkConfig := blinkConfig s;
     currentRole := currentRole s;
     session_startTime := session_startTime s;
     instructions := instructions s |}.

Definition set_blinkConfig (v : option BlinkConfig) (s : Session) : Session :=
  {| world := world s;
     blinkConfig := v;
     currentRole := currentRole s;
     session_startTime := session_startTime s;
     instructions := instructions s |}.

Definition set_instructions (v : Instructions) (s : Session) : Session :=
  {| world := world s;
     blinkConfig := blinkConfig s;
     currentRole := currentRole s;
     session_startTime := session_startTime s;
     instructions := v |}.

Definition set_session_startTime (v : option Z) (s : Session) : Session :=
  {| world := world s;
     blinkConfig := blinkConfig s;
     currentRole := currentRole s;
     session_startTime := v;
     instructions := instructions s |}.

Definition Role_eqb (a b : Role) : bool :=
  match a, b with
  | INITIATOR, INITIATOR | RECEIVER, RECEIVER => true
  | _, _ => false
  end.

(** How a call of [handlePlayClick] ends. *)
Inductive PlayResult : Type :=
| PlayFallback (s : Session)       (* the share failed: fallback shown, early return *)
| PlayIdle (s : Session)           (* no configuration: nothing is started *)
| PlayHang (s : Session)           (* [getNextStartTime] does not return *)
| PlayStarted (s : Session) (a : Animation) (o : Outcome).
                                   (* countdown and animation started; [o] is how the
                                      first stretch of [runPattern] ended *)

Section Handlers.

Variable theme : string -> string.

(** [showShareFallback(urlToCopy)]: the instructions are replaced. *)
Definition showShareFallback (b : Browser) (urlToCopy : option string) (s : Session)
  : Session :=
  set_instructions (InstructionsShareFallback urlToCopy (browser_hasClipboard b)) s.

(** "Start countdown/blinking": [handlePlayClick] from [setState(COUNTDOWN)] on. *)
Definition start_countdown_and_blinking (fuel : nat) (handle now : Z) (s : Session)
  : PlayResult :=
  let w := setState theme COUNTDOWN (world s) in
  let w := set_currentAnimationId (currentAnimationId w + 1) w in
  match blinkConfig s with
  | None => PlayIdle (set_world w s)
  | Some cfg =>
      match getNextStartTime fuel now (timeOffset cfg) with
      | None => PlayHang (set_world w s)
      | Some startTime =>
          let s := set_session_startTime (Some startTime) s in
          let w := startCountdown startTime now handle w in
          let a := animateBackgroundColor theme cfg startTime (currentAnimationId w) in
          let '(w, o) := runPattern theme fuel a now w in
          PlayStarted (set_world w s) a o
      end
  end.

(** [handlePlayClick], the wait for the share taken as one step: [dr] are
    its random draws, [handle] the id its [setInterval] returns. *)
Definition handlePlayClick (fuel : nat) (b : Browser) (dr : Draws) (handle now : Z)
           (s : Session) : PlayResult :=
  match blinkConfig s with
  | None =>
      if Role_eqb (currentRole s) INITIATOR then
        let s := set_blinkConfig (Some (drawn_config dr)) s in
        let shareUrl :=
          generateShareUrl (browser_origin b) (browser_pathname b) (blinkConfig s) in
        if negb (tryShare b shareUrl) then PlayFallback (showShareFallback b shareUrl s)
        else start_countdown_and_blinking fuel handle now s
      else start_countdown_and_blinking fuel handle now s
  | Some _ => start_countdown_and_blinking fuel handle now s
  end.

Definition handleCancelClick (s : Session) : Session :=
  let s := set_blinkConfig None s in
  let s := set_instructions
             (match currentRole s with
              | RECEIVER => InstructionsReceiver
              | INITIATOR => InstructionsInitiator
              end) s in
  set_world (setState theme WELCOME (world s)) s.

(** [changeColor] of [animatePhoneColor]: [draw] is the color drawn and
    [coin] the outcome of [Math.random() < 0.5]; the result is the new
    state and the delay of the timeout it sets, if it sets one. *)
Definition changeColor (draw : nat) (coin : bool) (w : World) : World * option Z :=
  match phoneHolder w with
  | None => (w, None)
  | Some _ =>
      match currentState w with
      | RUNNING => (set_phoneHolder (Some "white") w, Some 100)
      | _ =>
          let randomColor := nth_error COLORS draw in
          let colorValue := getPropertyValue theme randomColor in
          let waitTime := if coin then 250 else 750 in
          (set_phoneHolder (Some colorValue) w, Some waitTime)
      end
  end.

(** The [DOMContentLoaded] listener: [search] is [window.location.search],
    [wordSwap] tells whether the page has a [#wordSwap] element and
    [handle] is the id of the interval set for it. *)
Definition onDOMContentLoaded (search : string) (page : Page) (draw : nat) (coin : bool)
           (wordSwap : bool) (handle : Z) : Session :=
  let w := updateUI theme (initial_world page) in
  let w := fst (changeColor draw coin w) in
  let s := {| world := w;
              blinkConfig := None;
              currentRole := INITIATOR;
              session_startTime := None;
              instructions := InstructionsOfPage |} in
  let s := match decodeUrl search with
           | Some decodedConfig =>
               {| world := world s;
                  blinkConfig := Some decodedConfig;
                  currentRole := RECEIVER;
                  session_startTime := session_startTime s;
                  instructions := InstructionsReceiver |}
           | None => s
           end in
  if wordSwap then set_world (setInterval handle (world s)) s else s.

End Handlers.

(** ** Statements about whole cycles of the animation *)

(** The color that follows [c] in the animation [a]. *)
Definition toggle (a : Animation) (c : string) : string :=
  if String.eqb c (color1Value a) then color2Value a else color1Value a.

(** What the steps [i], [i + 1], ... of pattern [p] paint when step [i]
    begins at [t] with color [c] and [n] steps remain: one color per step,
    then the neutral color. *)
Fixpoint expected_paints (a : Animation) (p : string) (n i : nat) (t : Z) (c : string)
  : list (Z * string) :=
  match n with
  | O => [(t, defaultColor a)]
  | S n' =>
      (t, c) :: expected_paints a p n' (S i)
                  (t + Z.max (step_duration (String.get i p)) 0) (toggle a c)
  end.

(** The time a pattern takes. *)
Fixpoint pattern_duration (p : string) : Z :=
  match p with
  | EmptyString => 0
  | String c rest => step_duration (Some c) + pattern_duration rest
  end.

(** *** Concrete inputs for the examples *)

(** The configuration of the link [?c1=%31&c2=0x2&p= +9&t=-0]. *)
Definition example_decoded : BlinkConfig :=
  {| color1 := Some "--color-accent";
     color2 := Some "--color-info";
     pattern := Some "----.-";
     timeOffset := Int 0 |}.

(** The configuration of the link [?c1=0&c2=1&p=0&t=soon]. *)
Definition example_decoded_NaN : BlinkConfig :=
  {| color1 := Some "--color-secondary";
     color2 := Some "--color-accent";
     pattern := Some "..-..-.-..";
     timeOffset := NaN |}.

(** Draws for which both pairs give the same color. *)
Definition example_draws : Draws :=
  {| draw_color1 := (0%nat, 0%nat);
     draw_color2 := (1%nat, 0%nat);
     draw_pattern := 4%nat;
     draw_offset := 3%nat |}.

(** The session a call of [handlePlayClick] leaves. *)
Definition session_of (r : PlayResult) : Session :=
  match r with
  | PlayFallback s | PlayIdle s | PlayHang s | PlayStarted s _ _ => s
  end.

(** A background that is the neutral color of animation [a]. *)
Definition stays_neutral (a : Animation) (e : Event) : Prop :=
  backgroundColor (after e) = defaultColor a.

Definition example_browser : Browser :=
  {| browser_origin := "https://findmeblink.example";
     browser_pathname := "/index.html";
     browser_canShare := false;
     browser_shareResolves := false;
     browser_hasClipboard := true |}.

(** A receiver: the page loaded from the link [?c1=2&c2=5&p=4&t=3]. *)
Definition example_receiver : Session :=
  onDOMContentLoaded example_theme "?c1=2&c2=5&p=4&t=3" example_page 0 true true 3.

(** An initiator: the page loaded with no parameters. *)
Definition example_initiator : Session :=
  onDOMContentLoaded example_theme "" example_page 0 true true 3.

(** The instant at which the steps [i], [i + 1], ... of pattern [p] are
    over when step [i] begins at [t] and [n] steps remain. *)
Fixpoint steps_end (p : string) (n i : nat) (t : Z) : Z :=
  match n with
  | O => t
  | S n' => steps_end p n' (S i) (t + Z.max (step_duration (String.get i p)) 0)
  end.

(** A browser in which sharing works and the user completes it. *)
Definition example_sharing_browser : Browser :=
  {| browser_origin := "https://findmeblink.example";
     browser_pathname := "/index.html";
     browser_canShare := true;
     browser_shareResolves := true;
     browser_hasClipboard := true |}.

(** * Properties *)

(** ** ScheduleCalculator *)

Section Schedule.

Variable d : Z.
Hypothesis digit : 0 <= d <= 9.

Let digit1 := js_rem (Int d) 10.
Let digit2 := js_rem (js_add (Int d) 5) 10.

Lemma ends_in_true (s : Z) :
  ends_in digit1 digit2 s = true <->
  (Z.rem s 10 = d \/ Z.rem s 10 = Z.rem (d + 5) 10).
Proof.
  unfold ends_in, digit1, digit2; cbn [js_rem js_add strict_eq].
  rewrite orb_true_iff, !Z.eqb_eq, (Z.rem_small d 10) by lia.
  reflexivity.
Qed.

(** On non-negative seconds the loop test is the specification's test. *)
Lemma ends_in_matches (s : Z) :
  0 <= s -> (ends_in digit1 digit2 s = true <-> digit_matches d s).
Proof.
  intros Hs. rewrite ends_in_true. unfold digit_matches, last_digit.
  rewrite !Z.rem_mod_nonneg by lia. reflexivity.
Qed.

(** A second the loop accepts is in the target set, whatever its sign. *)
Lemma ends_in_sound (s : Z) :
  ends_in digit1 digit2 s = true -> digit_matches d s.
Proof.
  rewrite ends_in_true. unfold digit_matches, last_digit.
  rewrite (Z.rem_mod_nonneg (d + 5) 10) by lia.
  intros H. destruct (Z.le_gt_cases 0 s) as [Hs | Hs].
  - rewrite Z.rem_mod_nonneg in H by lia. exact H.
  - assert (Z.rem s 10 = 0).
    { pose proof (Z.rem_bound_pos_neg s 10 eq_refl (Z.lt_le_incl _ _ Hs)).
      pose proof (Z.mod_pos_bound (d + 5) 10 eq_refl). lia. }
    assert (s mod 10 = 0).
    { pose proof (Z.quot_rem' s 10).
      apply Z.mod_divide; [lia|]. exists (Z.quot s 10). lia. }
    lia.
Qed.

(** The loop returns the first accepted candidate, if one is within reach. *)
Lemma search_first (fuel : nat) :
  forall c k,
    0 <= k < Z.of_nat fuel ->
    ends_in digit1 digit2 (c + k) = true ->
    exists j,
      0 <= j <= k /\
      search fuel digit1 digit2 c = Some ((c + j) * 1000) /\
      ends_in digit1 digit2 (c + j) = true /\
      forall i, 0 <= i < j -> ends_in digit1 digit2 (c + i) = false.
Proof.
  induction fuel as [| fuel IH]; intros c k Hk Hit.
  - lia.
  - cbn [search]. destruct (ends_in digit1 digit2 c) eqn:E.
    + exists 0. rewrite Z.add_0_r. repeat split; try lia; auto.
    + assert (k <> 0) by (intros ->; rewrite Z.add_0_r in Hit; congruence).
      destruct (IH (c + 1) (k - 1)) as (j & Hj & Hs & Hj1 & Hj2).
      * lia.
      * replace (c + 1 + (k - 1)) with (c + k) by lia. exact Hit.
      * exists (j + 1).
        replace (c + (j + 1)) with (c + 1 + j) by lia.
        repeat split; try lia; auto.
        intros i Hi. destruct (Z.eq_dec i 0) as [-> | Hne].
        -- rewrite Z.add_0_r. exact E.
        -- replace (c + i) with (c + 1 + (i - 1)) by lia. apply Hj2. lia.
Qed.

Lemma search_more_fuel (fuel extra : nat) :
  forall c r,
    search fuel digit1 digit2 c = Some r ->
    search (fuel + extra) digit1 digit2 c = Some r.
Proof.
  induction fuel as [| fuel IH]; intros c r; cbn [search Nat.add].
  - discriminate.
  - destruct (ends_in digit1 digit2 c); auto.
Qed.

(** Among five consecutive seconds one is in the target set. *)
Lemma hit_within_five (s : Z) :
  exists k, 0 <= k < 5 /\ digit_matches d (s + k).
Proof.
  exists ((d - s) mod 5).
  unfold digit_matches, last_digit. split; [apply Z.mod_pos_bound; lia|].
  Z.to_euclidean_division_equations. lia.
Qed.

Lemma hit_unique (s k k' : Z) :
  0 <= k < 5 -> 0 <= k' < 5 ->
  digit_matches d (s + k) -> digit_matches d (s + k') -> k' = k.
Proof.
  unfold digit_matches, last_digit. intros Hk Hk' H H'.
  Z.to_euclidean_division_equations. lia.
Qed.

(** From a non-negative candidate second five iterations suffice. *)
Lemma search_five (c : Z) :
  0 <= c ->
  exists j,
    0 <= j < 5 /\
    search 5 digit1 digit2 c = Some ((c + j) * 1000) /\
    digit_matches d (c + j) /\
    forall i, 0 <= i < j -> ~ digit_matches d (c + i).
Proof.
  intros Hc. destruct (hit_within_five c) as (k & Hk & Hit).
  apply ends_in_matches in Hit; [| lia].
  destruct (search_first 5 c k) as (j & Hj & Hs & Hj1 & Hj2); [lia | exact Hit |].
  exists j. repeat split; try lia; auto.
  - apply ends_in_matches; [lia | exact Hj1].
  - intros i Hi Hm. apply ends_in_matches in Hm; [| lia].
    rewrite Hj2 in Hm by lia. discriminate.
Qed.

(** From any candidate second the loop returns. *)
Lemma search_terminates (c : Z) :
  exists fuel j,
    0 <= j /\
    search fuel digit1 digit2 c = Some ((c + j) * 1000) /\
    ends_in digit1 digit2 (c + j) = true.
Proof.
  destruct (hit_within_five (Z.max c 0)) as (k & Hk & Hit).
  apply ends_in_matches in Hit; [| lia].
  set (k' := Z.max c 0 + k - c) in *.
  replace (Z.max c 0 + k) with (c + k') in Hit by (unfold k'; lia).
  destruct (search_first (S (Z.to_nat k')) c k') as (j & Hj & Hs & Hj1 & _);
    [unfold k' in *; lia | exact Hit |].
  exists (S (Z.to_nat k')), j. repeat split; try lia; auto.
Qed.

End Schedule.

(** C1. For every digit [d] in 0..9 and every instant [t],
    [getNextStartTime] called with [d] at time [t] returns (the loop ends,
    and with any larger fuel it gives the same value) an instant that is
    strictly greater than [t], divisible by 1000, and whose epoch second
    has last decimal digit [d] or [(d + 5) mod 10]. *)
Theorem getNextStartTime_future_aligned (d t : Z) :
  0 <= d <= 9 ->
  exists r fuel0,
    (forall fuel, (fuel0 <= fuel)%nat -> getNextStartTime fuel t (Int d) = Some r) /\
    t < r /\
    r mod 1000 = 0 /\
    (last_digit (r / 1000) = d \/ last_digit (r / 1000) = (d + 5) mod 10).
Proof.
  intros Hd.
  destruct (search_terminates d Hd (t / 1000 + 1)) as (fuel0 & j & Hj & Hs & Hit).
  exists ((t / 1000 + 1 + j) * 1000), fuel0. repeat split.
  - intros fuel Hfuel. unfold getNextStartTime.
    replace fuel with (fuel0 + (fuel - fuel0))%nat by lia.
    apply search_more_fuel. exact Hs.
  - pose proof (Z.mul_div_le t 1000 eq_refl).
    pose proof (Z.mod_pos_bound t 1000 eq_refl).
    pose proof (Z.div_mod t 1000). lia.
  - apply Z.mod_mul. lia.
  - rewrite Z.div_mul by lia. apply (ends_in_sound d Hd). exact Hit.
Qed.

Lemma getNextStartTime_future_aligned_witness :
  exists r fuel0,
    (forall fuel, (fuel0 <= fuel)%nat -> getNextStartTime fuel 1700000012345 (Int 3) = Some r) /\
    1700000012345 < r /\
    r mod 1000 = 0 /\
    (last_digit (r / 1000) = 3 \/ last_digit (r / 1000) = (3 + 5) mod 10).
Proof.
  apply (getNextStartTime_future_aligned 3 1700000012345). lia.
Defined.

(** The value returned at a non-negative instant is the earliest on-schedule
    instant from the next whole second on. *)
Lemma next_start_earliest (d now : Z) :
  0 <= d <= 9 -> 0 <= now ->
  exists r,
    (forall fuel, (5 <= fuel)%nat -> getNextStartTime fuel now (Int d) = Some r) /\
    earliest_from d now r.
Proof.
  intros Hd Hnow.
  assert (Hc : 0 <= now / 1000 + 1) by (pose proof (Z.div_pos now 1000); lia).
  destruct (search_five d Hd (now / 1000 + 1) Hc) as (j & Hj & Hs & Hit & Hmin).
  exists ((now / 1000 + 1 + j) * 1000). split.
  - intros fuel Hfuel. unfold getNextStartTime.
    replace fuel with (5 + (fuel - 5))%nat by lia.
    apply search_more_fuel. exact Hs.
  - unfold earliest_from, next_whole_second, on_schedule. repeat split.
    + lia.
    + rewrite Z.div_mul by lia. exact Hit.
    + intros i Hi Hon.
      assert (Hsec : now / 1000 + 1 <= i / 1000).
      { apply Z.div_le_lower_bound; lia. }
      destruct (Z.lt_ge_cases (i / 1000) (now / 1000 + 1 + j)) as [Hlt | Hge].
      * exfalso. apply (Hmin (i / 1000 - (now / 1000 + 1))); [lia|].
        replace (now / 1000 + 1 + (i / 1000 - (now / 1000 + 1))) with (i / 1000) by lia.
        exact Hon.
      * pose proof (Z.mul_div_le i 1000 eq_refl). lia.
Qed.


(** For a fixed digit the value does not decrease as [now] increases. *)
Lemma getNextStartTime_monotone (d now1 now2 r1 r2 : Z) :
  0 <= d <= 9 -> 0 <= now1 <= now2 ->
  getNextStartTime 5 now1 (Int d) = Some r1 ->
  getNextStartTime 5 now2 (Int d) = Some r2 ->
  r1 <= r2.
Proof.
  intros Hd Hnow H1 H2.
  destruct (next_start_earliest d now1 Hd) as (r1' & Hr1 & _ & _ & Hmin); [lia|].
  destruct (next_start_earliest d now2 Hd) as (r2' & Hr2 & Hge & Hon & _); [lia|].
  rewrite (Hr1 5%nat) in H1 by lia. rewrite (Hr2 5%nat) in H2 by lia.
  injection H1 as <-. injection H2 as <-.
  apply Hmin; [| exact Hon].
  unfold next_whole_second in *.
  assert (now1 / 1000 <= now2 / 1000) by (apply Z.div_le_mono; lia). lia.
Qed.

(** C2, as stated, fails at [now = 0] with digit 1: the first candidate,
    second 1, is accepted, so the result 1000 is the start of the next
    whole second itself and not strictly later than it. *)
Lemma getNextStartTime_not_strictly_after :
  getNextStartTime 5 0 (Int 1) = Some 1000 /\ ~ earliest_strictly_after 1 0 1000.
Proof.
  split; [reflexivity|].
  unfold earliest_strictly_after, next_whole_second. cbn. lia.
Qed.

(** C2, amended. For every digit [d] in 0..9 and every instant
    [now >= 0], [getNextStartTime] returns the smallest instant at or after
    the start of the next whole second after [now] (that is, not smaller
    than [(floor(now / 1000) + 1) * 1000]) whose epoch second has last
    decimal digit [d] or [(d + 5) mod 10]. *)
Theorem getNextStartTime_earliest (d now : Z) :
  0 <= d <= 9 -> 0 <= now ->
  exists r,
    (forall fuel, (5 <= fuel)%nat -> getNextStartTime fuel now (Int d) = Some r) /\
    earliest_from d now r.
Proof. exact (next_start_earliest d now). Qed.

Lemma getNextStartTime_earliest_witness :
  exists r,
    (forall fuel, (5 <= fuel)%nat -> getNextStartTime fuel 1700000012345 (Int 3) = Some r) /\
    earliest_from 3 1700000012345 r.
Proof.
  apply (getNextStartTime_earliest 3 1700000012345); lia.
Defined.

(** C9. For every digit [d] in 0..9 and every instant [now >= 0] the
    search loop of [getNextStartTime] returns after examining at most five
    candidate seconds (five units of fuel are enough, and the value is
    candidate number [k + 1] for some [k < 5]); among any five consecutive
    epoch seconds exactly one has its last digit in [{d, (d + 5) mod 10}];
    and the instant returned is at most [now + 5000]. *)
Theorem getNextStartTime_within_five (d now : Z) :
  0 <= d <= 9 -> 0 <= now ->
  (exists k,
      0 <= k < 5 /\
      getNextStartTime 5 now (Int d) = Some ((now / 1000 + 1 + k) * 1000) /\
      (now / 1000 + 1 + k) * 1000 <= now + 5000) /\
  (forall s,
     exists k, (0 <= k < 5 /\ digit_matches d (s + k)) /\
               forall k', 0 <= k' < 5 -> digit_matches d (s + k') -> k' = k).
Proof.
  intros Hd Hnow. split.
  - assert (Hc : 0 <= now / 1000 + 1) by (pose proof (Z.div_pos now 1000); lia).
    destruct (search_five d Hd (now / 1000 + 1) Hc) as (j & Hj & Hs & _).
    exists j. repeat split; try lia; [exact Hs|].
    pose proof (Z.mul_div_le now 1000 eq_refl). lia.
  - intros s. destruct (hit_within_five d Hd s) as (k & Hk & Hit).
    exists k. split; [auto|]. intros k' Hk' Hit'.
    exact (hit_unique d s k k' Hk Hk' Hit Hit').
Qed.

Lemma getNextStartTime_within_five_witness :
  (exists k,
      0 <= k < 5 /\
      getNextStartTime 5 1700000012345 (Int 3)
        = Some ((1700000012345 / 1000 + 1 + k) * 1000) /\
      (1700000012345 / 1000 + 1 + k) * 1000 <= 1700000012345 + 5000) /\
  (forall s,
     exists k, (0 <= k < 5 /\ digit_matches 3 (s + k)) /\
               forall k', 0 <= k' < 5 -> digit_matches 3 (s + k') -> k' = k).
Proof.
  apply (getNextStartTime_within_five 3 1700000012345); lia.
Defined.

(** ** The pattern table *)

(** C6, as stated, fails: entry 8 of the table, ["-----."], is six
    symbols long. *)
Lemma pattern_table_has_short_entry :
  nth_error PATTERNS 8 = Some "-----." /\
  String.length "-----." = 6%nat /\
  ~ pattern_table 7 10.
Proof.
  split; [reflexivity | split; [reflexivity|]].
  intros [_ H]. rewrite Forall_forall in H.
  destruct (H "-----.") as [_ [Hlo _]].
  - unfold PATTERNS. cbn [In]. tauto.
  - cbn in Hlo. lia.
Qed.

(** C6, amended. The fixed [PATTERNS] table has exactly 10 entries,
    indexable 0..9, and every entry is a string over the alphabet
    [{'.', '-'}] whose length is between 6 and 10 symbols inclusive. *)
Theorem pattern_table_shape :
  pattern_table 6 10 /\
  (forall i, (i < 10)%nat <-> nth_error PATTERNS i <> None).
Proof.
  split.
  - split; [reflexivity|].
    unfold PATTERNS. repeat constructor; cbn; lia.
  - intros i. rewrite nth_error_Some. reflexivity.
Qed.

(** ** ConfigCodec *)

Lemma opt_string_eqb_eq (a b : option string) :
  opt_string_eqb a b = true -> a = b.
Proof.
  destruct a, b; cbn; try discriminate; auto.
  intros H. apply String.eqb_eq in H. congruence.
Qed.

Lemma number_eqb_eq (a b : number) : number_eqb a b = true -> a = b.
Proof.
  destruct a, b; cbn; try discriminate; auto.
  intros H. apply Z.eqb_eq in H. congruence.
Qed.

Lemma config_eqb_eq (a b : BlinkConfig) : config_eqb a b = true -> a = b.
Proof.
  unfold config_eqb. rewrite !andb_true_iff. intros [[[H1 H2] H3] H4].
  destruct a, b; cbn in *.
  apply opt_string_eqb_eq in H1, H2, H3. apply number_eqb_eq in H4.
  congruence.
Qed.

Lemma valid_config_in_table (c : BlinkConfig) :
  valid_config c -> In c table_configs.
Proof.
  intros (a & b & p & t & -> & Ha & Hb & _ & Hp & Ht).
  unfold table_configs.
  apply in_flat_map. exists a. split; [exact Ha|].
  apply in_flat_map. exists b. split; [exact Hb|].
  apply in_flat_map. exists p. split; [exact Hp|].
  apply in_map_iff. exists t. split; [reflexivity|].
  cbn [In]. lia.
Qed.

(** The whole table of configurations decodes back, by evaluation. *)
Lemma table_configs_decode_back : forallb decodes_back table_configs = true.
Proof. vm_compute. reflexivity. Qed.

Lemma decodes_to_eq (search : string) (c : BlinkConfig) :
  decodes_to search c = true -> decodeUrl search = Some c.
Proof.
  unfold decodes_to. destruct (decodeUrl search) as [c' |]; [| discriminate].
  intros H. apply config_eqb_eq in H. congruence.
Qed.

Lemma valid_config_decodes_back (c : BlinkConfig) :
  valid_config c -> decodes_back c = true.
Proof.
  intros Hc. apply valid_config_in_table in Hc.
  pose proof table_configs_decode_back as Hall.
  rewrite forallb_forall in Hall. exact (Hall c Hc).
Qed.

Lemma decode_share_query (c : BlinkConfig) :
  valid_config c -> decodeUrl ("?" ++ share_query c) = Some c.
Proof.
  intros Hc. apply valid_config_decodes_back in Hc.
  apply andb_true_iff in Hc. apply decodes_to_eq. tauto.
Qed.

Lemma decode_bare_share_query (c : BlinkConfig) :
  valid_config c -> decodeUrl (share_query c) = Some c.
Proof.
  intros Hc. apply valid_config_decodes_back in Hc.
  apply andb_true_iff in Hc. apply decodes_to_eq. tauto.
Qed.

Lemma append_assoc (s1 s2 s3 : string) : s1 ++ s2 ++ s3 = (s1 ++ s2) ++ s3.
Proof.
  induction s1 as [| c s1 IH]; cbn; [reflexivity|].
  rewrite IH. reflexivity.
Qed.

Lemma until_hash_clean (s : string) : mentions "#" s = false -> until_hash s = s.
Proof.
  induction s as [| c s IH]; cbn; [reflexivity|].
  destruct (Ascii.eqb c "#"); cbn; [discriminate|].
  intros H. rewrite IH by exact H. reflexivity.
Qed.

Lemma mentions_app (c : ascii) (s1 s2 : string) :
  mentions c (s1 ++ s2) = mentions c s1 || mentions c s2.
Proof.
  induction s1 as [| c1 s1 IH]; cbn; [reflexivity|].
  rewrite IH, orb_assoc. reflexivity.
Qed.

Lemma from_question_prefix (s1 s2 : string) :
  mentions "?" s1 = false -> from_question (s1 ++ "?" ++ s2) = "?" ++ s2.
Proof.
  induction s1 as [| c s1 IH]; cbn; [reflexivity|].
  destruct (Ascii.eqb c "?"); cbn; [discriminate | exact IH].
Qed.

(** No configuration of the table is written with a [#] or with an empty query. *)
Lemma share_query_clean :
  forallb (fun c => negb (mentions "#" (share_query c))
                    && negb (is_empty (share_query c))) table_configs = true.
Proof. vm_compute. reflexivity. Qed.

(** C3. For every valid [BlinkConfig] [c] (two different colors of the
    6-entry [COLORS] table, a pattern of the 10-entry [PATTERNS] table,
    [timeOffset] in 0..9), decoding the query string that encoding [c]
    produces yields exactly [c]: [generateShareUrl] writes
    [origin ++ pathname ++ "?" ++ query], and [decodeUrl] applied to that
    query, with or without the leading [?], returns [c]. *)
Theorem decodeUrl_generateShareUrl (origin pathname : string) (c : BlinkConfig) :
  valid_config c ->
  generateShareUrl origin pathname (Some c)
  = Some (origin ++ pathname ++ "?" ++ share_query c) /\
  decodeUrl ("?" ++ share_query c) = Some c /\
  decodeUrl (share_query c) = Some c.
Proof.
  intros Hc. split; [reflexivity|].
  split; [apply decode_share_query | apply decode_bare_share_query]; exact Hc.
Qed.

(** The same through the address bar: on a page loaded from the share URL,
    [location.search] is the query with its [?], and it decodes to [c]. *)
Lemma decodeUrl_of_shared_page (origin pathname : string) (c : BlinkConfig) :
  valid_config c ->
  mentions "?" (origin ++ pathname) = false ->
  mentions "#" (origin ++ pathname) = false ->
  exists url,
    generateShareUrl origin pathname (Some c) = Some url /\
    location_search url = "?" ++ share_query c /\
    decodeUrl (location_search url) = Some c.
Proof.
  intros Hc Hq Hh.
  exists (origin ++ pathname ++ "?" ++ share_query c).
  assert (Hs : location_search (origin ++ pathname ++ "?" ++ share_query c)
               = "?" ++ share_query c).
  { pose proof share_query_clean as Hclean.
    rewrite forallb_forall in Hclean.
    specialize (Hclean c (valid_config_in_table c Hc)).
    apply andb_true_iff in Hclean. destruct Hclean as [Hnohash Hnonempty].
    apply negb_true_iff in Hnohash, Hnonempty.
    unfold location_search.
    rewrite append_assoc.
    rewrite until_hash_clean.
    - rewrite from_question_prefix by exact Hq.
      destruct (share_query c); [discriminate | reflexivity].
    - rewrite mentions_app, Hh. cbn. exact Hnohash. }
  split; [reflexivity|]. split; [exact Hs|].
  rewrite Hs. apply decode_share_query. exact Hc.
Qed.

(** [decodeUrl] is a total function: it returns [null] or a record, and
    has no path that throws. Whenever one of the four keys is missing it
    returns [null]. *)
Lemma decodeUrl_missing_key (search : string) :
  let params := URLSearchParams_of_string search in
  has params "c1" = false \/ has params "c2" = false \/
  has params "p" = false \/ has params "t" = false ->
  decodeUrl search = None.
Proof.
  cbv zeta. unfold decodeUrl. intros [H | [H | [H | H]]]; rewrite H; cbn;
    rewrite ?orb_true_r; reflexivity.
Qed.

(** What the validation lets through: all four keys present, and each
    number in its range or [NaN]. *)
Lemma decodeUrl_accepts (search : string) (c : BlinkConfig) :
  decodeUrl search = Some c ->
  let params := URLSearchParams_of_string search in
  (has params "c1" = true /\ has params "c2" = true /\
   has params "p" = true /\ has params "t" = true) /\
  passes_validation (parseInt (non_null (get params "c1"))) 0 6 /\
  passes_validation (parseInt (non_null (get params "c2"))) 0 6 /\
  passes_validation (parseInt (non_null (get params "p"))) 0 10 /\
  passes_validation (parseInt (non_null (get params "t"))) 0 10.
Proof.
  unfold decodeUrl. cbv zeta.
  set (params := URLSearchParams_of_string search).
  destruct (has params "c1"), (has params "c2"), (has params "p"), (has params "t");
    cbn [negb orb]; try discriminate.
  destruct (parseInt (non_null (get params "c1"))) as [| i1];
  destruct (parseInt (non_null (get params "c2"))) as [| i2];
  destruct (parseInt (non_null (get params "p"))) as [| ip];
  destruct (parseInt (non_null (get params "t"))) as [| it];
    cbn [js_lt js_ge js_gt passes_validation List.length COLORS PATTERNS];
    intros H;
    repeat match type of H with
           | context [?a <? ?b] => destruct (Z.ltb_spec a b)
           | context [?a <=? ?b] => destruct (Z.leb_spec a b)
           end; cbn [orb] in H; try discriminate; repeat split; auto; lia.
Qed.

(** A parameter that does not parse yields [NaN], which passes every
    comparison of the validation: the result is not [null], and the field
    read from the table at [NaN] is [undefined]. *)
Theorem decodeUrl_unparseable_not_null :
  parseInt "x" = NaN /\
  decodeUrl "?c1=x&c2=0&p=0&t=0"
  = Some {| color1 := None;
            color2 := Some "--color-secondary";
            pattern := Some "..-..-.-..";
            timeOffset := Int 0 |}.
Proof. split; reflexivity. Qed.

(** The same for an empty [t]: the decoded time offset is [NaN], on which
    the search loop of [getNextStartTime] never returns. *)
Lemma decodeUrl_empty_offset :
  decodeUrl "?c1=0&c2=1&p=0&t="
  = Some {| color1 := Some "--color-secondary";
            color2 := Some "--color-accent";
            pattern := Some "..-..-.-..";
            timeOffset := NaN |}.
Proof. reflexivity. Qed.

Lemma getNextStartTime_NaN (fuel : nat) (now : Z) :
  getNextStartTime fuel now NaN = None.
Proof.
  unfold getNextStartTime. cbn [js_rem js_add].
  generalize (now / 1000 + 1).
  induction fuel as [| fuel IH]; intros c; cbn; auto.
Qed.

(** [decodeUrl] does not compare the two colors: for the query string
    [c1=0&c2=0&p=0&t=0], all four parameters present and in range, it
    returns a configuration whose [color1] equals its [color2], whereas
    the two colors of the pair that one call of [getRandomColors] returns
    always differ. *)
Theorem decodeUrl_equal_colors (draw1 draw2 : nat) :
  (draw1 < 6)%nat -> (draw2 < 5)%nat ->
  (exists c, decodeUrl "?c1=0&c2=0&p=0&t=0" = Some c /\
             decodeUrl "c1=0&c2=0&p=0&t=0" = Some c /\
             color1 c = Some "--color-secondary" /\
             color1 c = color2 c) /\
  (exists a b, pair_color1 (getRandomColors draw1 draw2) = Some a /\
               pair_color2 (getRandomColors draw1 draw2) = Some b /\
               a <> b).
Proof.
  intros H1 H2. split.
  - eexists. repeat split; reflexivity.
  - assert (D1 : (draw1 = 0 \/ draw1 = 1 \/ draw1 = 2 \/ draw1 = 3 \/ draw1 = 4
                  \/ draw1 = 5)%nat) by lia.
    assert (D2 : (draw2 = 0 \/ draw2 = 1 \/ draw2 = 2 \/ draw2 = 3 \/ draw2 = 4)%nat)
      by lia.
    destruct D1 as [-> | [-> | [-> | [-> | [-> | ->]]]]];
    destruct D2 as [-> | [-> | [-> | [-> | ->]]]];
    do 2 eexists; (split; [reflexivity | split; [reflexivity | discriminate]]).
Qed.

Lemma decodeUrl_equal_colors_witness :
  (exists c, decodeUrl "?c1=0&c2=0&p=0&t=0" = Some c /\
             decodeUrl "c1=0&c2=0&p=0&t=0" = Some c /\
             color1 c = Some "--color-secondary" /\
             color1 c = color2 c) /\
  (exists a b, pair_color1 (getRandomColors 2 2) = Some a /\
               pair_color2 (getRandomColors 2 2) = Some b /\
               a <> b).
Proof.
  apply (decodeUrl_equal_colors 2 2); lia.
Defined.

(** The colors of a configuration generated by [handlePlayClick] come from
    two separate pairs, and can coincide. *)
Lemma new_blinkConfig_equal_colors :
  color1 (new_blinkConfig 0 0 1 0 0 0) = Some "--color-secondary" /\
  color2 (new_blinkConfig 0 0 1 0 0 0) = Some "--color-secondary".
Proof. split; reflexivity. Qed.

(** ** SessionStateMachine *)

Section Session.

Variable theme : string -> string.

Lemma updateUI_currentState (w : World) :
  currentState (updateUI theme w) = currentState w.
Proof.
  unfold updateUI.
  destruct (countdownIntervalId w) as [id |]; [destruct (id =? 0)|];
    cbn [clear_countdown currentState];
    destruct (currentState w) eqn:E; cbn; auto.
Qed.

Lemma updateUI_shouldPauseBackground (w : World) :
  shouldPauseBackground (updateUI theme w)
  = match currentState w with WELCOME => true | _ => false end.
Proof.
  unfold updateUI.
  destruct (countdownIntervalId w) as [id |]; [destruct (id =? 0)|];
    cbn [clear_countdown currentState];
    destruct (currentState w) eqn:E; cbn; auto.
Qed.

Lemma updateUI_currentAnimationId (w : World) :
  currentAnimationId (updateUI theme w) = currentAnimationId w.
Proof.
  unfold updateUI.
  destruct (countdownIntervalId w) as [id |]; [destruct (id =? 0)|];
    cbn [clear_countdown currentState];
    destruct (currentState w) eqn:E; cbn; auto.
Qed.

Lemma updateUI_backgroundColor (w : World) :
  backgroundColor (updateUI theme w)
  = match currentState w with
    | WELCOME => theme "--color-base-200"
    | _ => backgroundColor w
    end.
Proof.
  unfold updateUI.
  destruct (countdownIntervalId w) as [id |]; [destruct (id =? 0)|];
    cbn [clear_countdown currentState];
    destruct (currentState w) eqn:E; cbn; auto.
Qed.

Lemma updateUI_tracks (w : World) : pause_tracks_phase (updateUI theme w).
Proof.
  unfold pause_tracks_phase.
  rewrite updateUI_shouldPauseBackground, updateUI_currentState.
  destruct (currentState w); split; congruence.
Qed.

(** C7. The pause flag tracks the session phase: in the initial state
    and after every [updateUI] or [setState] call,
    [shouldPauseBackground] is true if and only if [currentState] is
    [WELCOME]; the transitions to [COUNTDOWN] and [RUNNING] set it false
    and the transition to [WELCOME] sets it true. *)
Theorem pause_flag_tracks_phase :
  (forall page, pause_tracks_phase (initial_world page)) /\
  (forall w, pause_tracks_phase (updateUI theme w)) /\
  (forall s w, pause_tracks_phase (setState theme s w)) /\
  (forall s w, currentState (setState theme s w) = s) /\
  (forall w, shouldPauseBackground (setState theme WELCOME w) = true) /\
  (forall w, shouldPauseBackground (setState theme COUNTDOWN w) = false) /\
  (forall w, shouldPauseBackground (setState theme RUNNING w) = false).
Proof.
  split; [| split; [| split; [| split; [| split; [| split]]]]].
  - intros page. unfold pause_tracks_phase. cbn. tauto.
  - apply updateUI_tracks.
  - intros s w. apply updateUI_tracks.
  - intros s w. unfold setState. rewrite updateUI_currentState. reflexivity.
  - intros w. unfold setState. rewrite updateUI_shouldPauseBackground. reflexivity.
  - intros w. unfold setState. rewrite updateUI_shouldPauseBackground. reflexivity.
  - intros w. unfold setState. rewrite updateUI_shouldPauseBackground. reflexivity.
Qed.

End Session.

(** ** AnimationEngine *)

Section Animation.

Variable theme : string -> string.

Lemma start_flashing_currentAnimationId (w : World) :
currentAnimationId (start_flashing theme w) = currentAnimationId w.
Proof.
unfold start_flashing, setState. rewrite updateUI_currentAnimationId.
destruct (phoneHolder _); reflexivity.
Qed.

Lemma start_flashing_shouldPauseBackground (w : World) :
shouldPauseBackground (start_flashing theme w) = false.
Proof.
unfold start_flashing, setState. rewrite updateUI_shouldPauseBackground.
reflexivity.
Qed.

Lemma start_flashing_backgroundColor (w : World) :
backgroundColor (start_flashing theme w) = backgroundColor w.
Proof.
unfold start_flashing, setState. rewrite updateUI_backgroundColor.
cbn. destruct (phoneHolder w); reflexivity.
Qed.

Lemma start_flashing_stale (a : Animation) (w : World) :
stale a (start_flashing theme w) = stale a w.
Proof. unfold stale. rewrite start_flashing_currentAnimationId. reflexivity. Qed.

(** One step of the pattern by a live, unpaused loop: paint, then wait. *)
Lemma for_loop_step (fuel : nat) (a : Animation) (now : Z) (i : nat)
    (c p : string) (w : World) :
pattern (config a) = Some p ->
(i < String.length p)%nat ->
stale a w = false ->
shouldPauseBackground w = false ->
for_loop fuel a now i c w
= (set_backgroundColor c w, Await (step_duration (String.get i p)) (AfterStep i c)).
Proof.
intros Hp Hi Hs Hpause. unfold for_loop. rewrite Hp.
apply Nat.ltb_lt in Hi. rewrite Hi, Hs, Hpause. reflexivity.
Qed.

(** Past the last character the background is reset, whatever follows. *)
Lemma for_loop_complete (fuel : nat) (a : Animation) (now : Z) (i : nat)
    (c p : string) (w : World) :
pattern (config a) = Some p ->
(String.length p <= i)%nat ->
fst (for_loop fuel a now i c w) = reset_background a w.
Proof.
intros Hp Hi. unfold for_loop. rewrite Hp.
apply Nat.ltb_ge in Hi. rewrite Hi.
destruct (getNextStartTime fuel now (timeOffset (config a))) as [next |];
  [destruct (next - now >? 0)|]; reflexivity.
Qed.

Lemma toggle_back (c1 c2 : string) :
(if String.eqb c2 c1 then c2 else c1) = c1.
Proof. destruct (String.eqb_spec c2 c1); congruence. Qed.

(** No stretch of the loop breaks the agreement of pause flag and phase:
    the loop changes them only through [setState]. *)
Lemma for_loop_phase (fuel : nat) (a : Animation) (now : Z) (i : nat) (c : string)
      (w : World) :
  currentState (fst (for_loop fuel a now i c w)) = currentState w /\
  shouldPauseBackground (fst (for_loop fuel a now i c w)) = shouldPauseBackground w.
Proof.
  unfold for_loop.
  destruct (pattern (config a)) as [p |]; [| split; reflexivity].
  destruct (i <? String.length p)%nat.
  - destruct (stale a w); [split; reflexivity|].
    destruct (shouldPauseBackground w) eqn:E; split; cbn; auto.
  - destruct (getNextStartTime fuel now (timeOffset (config a))) as [next |];
      [destruct (next - now >? 0)|]; split; reflexivity.
Qed.

Lemma resume_tracks (fuel : nat) (a : Animation) (k : Cont) (now : Z) (w : World) :
  pause_tracks_phase w -> pause_tracks_phase (fst (resume theme fuel a k now w)).
Proof.
  intros Hw.
  assert (Hloop : forall i c w', pause_tracks_phase w' ->
                    pause_tracks_phase (fst (for_loop fuel a now i c w'))).
  { intros i c w' Hw'. unfold pause_tracks_phase in *.
    destruct (for_loop_phase fuel a now i c w') as [-> ->]. exact Hw'. }
  assert (Hstart : pause_tracks_phase
                     (fst (after_start_wait theme fuel a now w))).
  { unfold after_start_wait.
    destruct (stale a w || shouldPauseBackground w).
    - destruct (shouldPauseBackground w); exact Hw.
    - apply Hloop. unfold start_flashing, setState. apply updateUI_tracks. }
  destruct k as [| | i c]; cbn [resume].
  - unfold runPattern. destruct (stale a w); [exact Hw|].
    destruct (shouldPauseBackground w) eqn:E; [exact Hw|].
    destruct (startTime a - now >? 0); [exact Hw | exact Hstart].
  - exact Hstart.
  - apply Hloop. exact Hw.
Qed.

(** The last event of an execution: nothing is run after it. *)
Lemma run_with_one (env : Z -> World -> World) (fuel : nat) (a : Animation)
    (k : Cont) (now : Z) (w : World) :
run_with theme env 1 fuel a k now w
= [ {| time := now; before := env now w;
       after := fst (resume theme fuel a k now (env now w)) |} ].
Proof.
cbn [run_with].
destruct (resume theme fuel a k now (env now w)) as [w1 [ms k' | k' | | |]];
  reflexivity.
Qed.

Lemma run_with_await (env : Z -> World -> World) (n fuel : nat) (a : Animation)
    (k k' : Cont) (now ms : Z) (w w1 : World) :
resume theme fuel a k now (env now w) = (w1, Await ms k') ->
run_with theme env (S n) fuel a k now w
= {| time := now; before := env now w; after := w1 |}
  :: run_with theme env n fuel a k' (now + Z.max ms 0) w1.
Proof. intros H. cbn [run_with]. rewrite H. reflexivity. Qed.

Lemma visible_at_paints (trace : list Event) (initially : string) (t : Z) :
visible_at trace initially t
= fold_left (fun bg p => if fst p <=? t then snd p else bg) (paints trace) initially.
Proof.
unfold visible_at, paints. revert initially.
induction trace as [| e trace IH]; intros initially; cbn; [reflexivity|].
apply IH.
Qed.

Ltac decide_leb :=
repeat match goal with
       | |- context [?a <=? ?b] => destruct (Z.leb_spec a b); try lia
       end.

(** The writes of one uninterrupted cycle of the pattern ["..-"]. *)
Lemma dot_dot_dash_paints (cfg : BlinkConfig) (T now0 id : Z) (fuel : nat) (w : World) :
pattern cfg = Some "..-" ->
currentAnimationId w = id ->
shouldPauseBackground w = false ->
now0 < T ->
let a := animateBackgroundColor theme cfg T id in
paints (run theme 5 fuel a AtEntry now0 w)
= [ (now0, backgroundColor w);
    (T, color1Value a);
    (T + 250, color2Value a);
    (T + 500, color1Value a);
    (T + 1250, defaultColor a) ].
Proof.
intros Hp Hid Hpause Hnow a.
assert (Hpa : pattern (config a) = Some "..-") by exact Hp.
assert (Hstale : stale a w = false).
{ unfold stale. cbn [a animateBackgroundColor animationId].
  rewrite Hid, Z.eqb_refl. reflexivity. }
unfold run.
(* the invocation: wait for the start time *)
erewrite run_with_await; cycle 1.
{ cbn [resume]. unfold runPattern. rewrite Hstale, Hpause.
  cbn [a animateBackgroundColor startTime].
  destruct (Z.gtb_spec (T - now0) 0); [reflexivity | lia]. }
replace (now0 + Z.max (T - now0) 0) with T by lia.
(* the start time: phase Running, step 0 *)
set (w1 := start_flashing theme w).
assert (Hs1 : stale a w1 = false) by (unfold w1; rewrite start_flashing_stale; exact Hstale).
assert (Hp1 : shouldPauseBackground w1 = false)
  by apply start_flashing_shouldPauseBackground.
erewrite run_with_await; cycle 1.
{ cbn [resume]. unfold after_start_wait. rewrite Hstale, Hpause. cbn [orb].
  fold w1. apply (for_loop_step fuel a T 0 _ "..-"); auto; cbn; lia. }
cbn [String.get step_duration Ascii.eqb Bool.eqb].
(* step 1 *)
erewrite run_with_await; cycle 1.
{ cbn [resume]. rewrite String.eqb_refl.
  apply (for_loop_step fuel a _ 1 _ "..-"); auto; cbn; lia. }
cbn [String.get step_duration Ascii.eqb Bool.eqb Nat.eqb].
(* step 2 *)
erewrite run_with_await; cycle 1.
{ cbn [resume]. rewrite toggle_back.
  apply (for_loop_step fuel a _ 2 _ "..-"); auto; cbn; lia. }
cbn [String.get step_duration Ascii.eqb Bool.eqb Nat.eqb].
(* past the last character *)
rewrite run_with_one. cbn [resume]. rewrite String.eqb_refl.
erewrite for_loop_complete by (try exact Hpa; cbn; lia).
cbn [paints map time after before reset_background set_backgroundColor
     set_isBackgroundFlashing backgroundColor].
unfold Duration.DOT, Duration.DASH.
repeat (f_equal; try lia).
Qed.

(** C5, amended. For the pattern ["..-"] started uninterrupted at
  instant [T] with colors [color1] and [color2], the writes to the
  background are [color1] at [T], [color2] at [T + 250], [color1] at
  [T + 500] and the neutral default color at [T + 1250], and no others:
  the visible background is [color1] over [[T, T+250)], [color2] over
  [[T+250, T+500)], [color1] over [[T+500, T+1250)], and it is reset to
  the neutral color at [T + 1250]; the color toggled to after the last
  character is never painted. *)
Theorem dot_dot_dash_timeline (cfg : BlinkConfig) (T now0 id : Z) (fuel : nat)
      (w : World) :
pattern cfg = Some "..-" ->
currentAnimationId w = id ->
shouldPauseBackground w = false ->
now0 < T ->
let a := animateBackgroundColor theme cfg T id in
let trace := run theme 5 fuel a AtEntry now0 w in
paints trace
= [ (now0, backgroundColor w);
    (T, color1Value a);
    (T + 250, color2Value a);
    (T + 500, color1Value a);
    (T + 1250, defaultColor a) ] /\
timeline trace (backgroundColor w) T (color1Value a) (color2Value a) (defaultColor a).
Proof.
intros Hp Hid Hpause Hnow a trace.
assert (Hpaints : paints trace
                  = [ (now0, backgroundColor w);
                      (T, color1Value a);
                      (T + 250, color2Value a);
                      (T + 500, color1Value a);
                      (T + 1250, defaultColor a) ])
  by (apply dot_dot_dash_paints; assumption).
split; [exact Hpaints|].
unfold timeline.
repeat split; intros; rewrite visible_at_paints, Hpaints;
  cbn [fold_left fst snd]; decide_leb; reflexivity.
Qed.

(** A stale loop that is invoked returns at once and writes nothing. *)
Lemma runPattern_stale (fuel : nat) (a : Animation) (now : Z) (w : World) :
stale a w = true -> runPattern theme fuel a now w = (w, Return).
Proof. intros H. unfold runPattern. rewrite H. reflexivity. Qed.

(** Any stretch of a stale loop writes nothing or only the reset, and
  schedules at most a new invocation. *)
Lemma resume_stale (fuel : nat) (a : Animation) (k : Cont) (now : Z) (w : World) :
stale a w = true ->
(fst (resume theme fuel a k now w) = w \/
 fst (resume theme fuel a k now w) = reset_background a w) /\
(snd (resume theme fuel a k now w) = Return \/
 snd (resume theme fuel a k now w) = Hang \/
 snd (resume theme fuel a k now w) = Throw \/
 snd (resume theme fuel a k now w) = Call AtEntry \/
 exists ms, snd (resume theme fuel a k now w) = Await ms AtEntry).
Proof.
intros H. destruct k as [| | i c]; cbn [resume].
- rewrite runPattern_stale by exact H. split; cbn [fst snd]; auto.
- unfold after_start_wait. rewrite H. cbn [orb].
  destruct (shouldPauseBackground w); split; cbn [fst snd]; eauto 7.
- unfold for_loop.
  destruct (pattern (config a)) as [p |]; [| split; cbn [fst snd]; auto].
  destruct (S i <? String.length p)%nat.
  + rewrite H. split; cbn [fst snd]; auto.
  + destruct (getNextStartTime fuel now (timeOffset (config a))) as [next |];
      [destruct (next - now >? 0)|]; split; cbn [fst snd]; eauto 7.
Qed.

(** A stale loop that resumes at the top of [runPattern] or after the wait
    for the start time writes nothing. *)
Lemma resume_stale_quiet (fuel : nat) (a : Animation) (k : Cont) (now : Z) (w : World) :
stale a w = true ->
k = AtEntry \/ k = AfterStartWait ->
fst (resume theme fuel a k now w) = w.
Proof.
intros H [-> | ->]; cbn [resume].
- rewrite runPattern_stale by exact H. reflexivity.
- unfold after_start_wait. rewrite H. cbn [orb].
  destruct (shouldPauseBackground w); reflexivity.
Qed.

Lemma run_with_stale_entry (env : Z -> World -> World) (n fuel : nat)
    (a : Animation) (now : Z) (w : World) :
stale a (env now w) = true ->
run_with theme env n fuel a AtEntry now w
= match n with
  | O => []
  | S _ => [ {| time := now; before := env now w; after := env now w |} ]
  end.
Proof.
intros Henv. destruct n as [| n]; cbn [run_with resume]; [reflexivity|].
rewrite runPattern_stale by exact Henv. reflexivity.
Qed.

Lemma at_most_reset_never_flashes (a : Animation) (e : Event) :
at_most_reset a e -> never_flashes a e.
Proof.
unfold at_most_reset, never_flashes. intros [-> | ->]; split; auto.
Qed.

(** C8, amended. Once the captured [animationId] of a loop differs
  from the live [currentAnimationId], and as long as the rest of the
  program does not make the two equal again, the loop never again paints
  one of its two colors and never changes the session phase: every later
  stretch of the loop either writes nothing or performs the reset of the
  background to the neutral default color with [isBackgroundFlashing]
  cleared; only the first stretch can write, and only when the loop
  resumes from the wait of a pattern step; a stale loop that resumes at
  the top of [runPattern] or after the wait for the start time writes
  nothing; and after at most two stretches the loop has stopped for
  good. *)
Theorem stale_loop_only_resets (env : Z -> World -> World) (n fuel : nat)
      (a : Animation) (k : Cont) (now : Z) (w : World) :
(forall t w', stale a w' = true -> stale a (env t w') = true) ->
stale a (env now w) = true ->
let trace := run_with theme env n fuel a k now w in
(List.length trace <= 2)%nat /\
Forall (at_most_reset a) trace /\
Forall (never_flashes a) trace /\
Forall writes_nothing (tl trace) /\
(k = AtEntry \/ k = AfterStartWait -> Forall writes_nothing trace).
Proof.
intros Hpres Hnow. cbv zeta.
assert (Hshape :
          run_with theme env n fuel a k now w = [] \/
          exists w1 rest,
            run_with theme env n fuel a k now w
            = {| time := now; before := env now w; after := w1 |} :: rest /\
            (w1 = env now w \/ w1 = reset_background a (env now w)) /\
            (k = AtEntry \/ k = AfterStartWait -> w1 = env now w) /\
            (rest = [] \/
             exists t', rest = [ {| time := t'; before := env t' w1;
                                    after := env t' w1 |} ])).
{ destruct n as [| n]; cbn [run_with]; [left; reflexivity | right].
  pose proof (resume_stale fuel a k now (env now w) Hnow) as [Hw Ho].
  pose proof (resume_stale_quiet fuel a k now (env now w) Hnow) as Hq.
  destruct (resume theme fuel a k now (env now w)) as [w1 o].
  cbn [fst snd] in Hw, Ho, Hq.
  assert (Hs1 : stale a w1 = true) by (destruct Hw as [-> | ->]; exact Hnow).
  assert (Hentry : forall t',
             run_with theme env n fuel a AtEntry t' w1 = [] \/
             exists t'', run_with theme env n fuel a AtEntry t' w1
                         = [ {| time := t''; before := env t'' w1;
                                after := env t'' w1 |} ]).
  { intros t'. rewrite run_with_stale_entry by (apply Hpres; exact Hs1).
    destruct n; [left; reflexivity | right; exists t'; reflexivity]. }
  exists w1.
  destruct Ho as [-> | [-> | [-> | [-> | [ms ->]]]]];
    eexists; (split; [reflexivity | split; [exact Hw | split; [exact Hq|]]]);
    auto. }
destruct Hshape as [-> | (w1 & rest & -> & Hw & Hq & Hrest)].
- repeat split; try constructor. cbn. lia.
- assert (Hfirst : at_most_reset a {| time := now; before := env now w; after := w1 |})
    by exact Hw.
  assert (Hrest' : Forall writes_nothing rest).
  { destruct Hrest as [-> | (t' & ->)]; repeat constructor. }
  assert (Hrest'' : Forall (at_most_reset a) rest).
  { destruct Hrest as [-> | (t' & ->)]; repeat constructor. }
  split; [destruct Hrest as [-> | (t' & ->)]; cbn; lia|].
  split; [constructor; assumption|].
  split.
  { constructor; [apply at_most_reset_never_flashes; exact Hfirst|].
    eapply Forall_impl; [| exact Hrest'']. apply at_most_reset_never_flashes. }
  split; [exact Hrest'|].
  intros Hk. constructor; [exact (Hq Hk) | exact Hrest'].
Qed.

End Animation.

(** C5, as stated, fails on the example session (start at 10000): at
    10500 the second dot is over and the background is [color1] again, not
    [color2], and at 11000 the dash is still showing [color1]; the reset
    to the neutral color comes at 11250. *)
Lemma dot_dot_dash_not_as_stated :
  let trace := run example_theme 5 5 example_animation AtEntry 9000 example_countdown in
  paints trace
  = [ (9000, "--color-base-200"); (10000, "--color-info"); (10250, "--color-error");
      (10500, "--color-info"); (11250, "--color-base-200") ] /\
  visible_at trace "--color-base-200" 10500 = "--color-info" /\
  visible_at trace "--color-base-200" 11000 = "--color-info" /\
  ~ timeline_as_stated trace "--color-base-200" 10000
      "--color-info" "--color-error" "--color-base-200".
Proof.
  cbv zeta. split; [vm_compute; reflexivity|].
  split; [vm_compute; reflexivity|].
  split; [vm_compute; reflexivity|].
  intros (_ & H & _). specialize (H 10500 ltac:(lia)).
  vm_compute in H. discriminate.
Qed.

Lemma dot_dot_dash_timeline_witness :
  let a := animateBackgroundColor example_theme example_config 10000 1 in
  let trace := run example_theme 5 5 a AtEntry 9000 example_countdown in
  paints trace
  = [ (9000, backgroundColor example_countdown);
      (10000, color1Value a);
      (10000 + 250, color2Value a);
      (10000 + 500, color1Value a);
      (10000 + 1250, defaultColor a) ] /\
  timeline trace (backgroundColor example_countdown) 10000
           (color1Value a) (color2Value a) (defaultColor a).
Proof.
  apply (dot_dot_dash_timeline example_theme example_config 10000 9000 1 5
                               example_countdown);
    [reflexivity | reflexivity | reflexivity | lia].
Defined.

(** C8, as stated, fails on the example session: generation 1 resumes
    at 11250 from the wait of its third step, finds generation 2 live, and
    overwrites the color that generation 2 painted with the neutral one. *)
Lemma stale_loop_repaints :
  stale example_long_animation example_superseded = true /\
  backgroundColor example_superseded = "--color-success" /\
  resume example_theme 5 example_long_animation (AfterStep 2 "--color-info") 11250
         example_superseded
  = (reset_background example_long_animation example_superseded, Return) /\
  backgroundColor (reset_background example_long_animation example_superseded)
  = "--color-base-200" /\
  ~ keeps_background example_theme 5 example_long_animation
      (AfterStep 2 "--color-info") 11250 example_superseded.
Proof.
  split; [reflexivity|]. split; [reflexivity|].
  split; [vm_compute; reflexivity|]. split; [reflexivity|].
  intros H. specialize (H eq_refl). vm_compute in H. discriminate.
Qed.

Lemma stale_loop_only_resets_witness :
  let trace :=
    run_with example_theme (fun _ _ => example_superseded) 5 5 example_long_animation
             (AfterStep 2 "--color-info") 11250 example_superseded in
  (List.length trace <= 2)%nat /\
  Forall (at_most_reset example_long_animation) trace /\
  Forall (never_flashes example_long_animation) trace /\
  Forall writes_nothing (tl trace) /\
  (AfterStep 2 "--color-info" = AtEntry \/ AfterStep 2 "--color-info" = AfterStartWait ->
   Forall writes_nothing trace).
Proof.
  apply (stale_loop_only_resets example_theme (fun _ _ => example_superseded) 5 5
                                example_long_animation (AfterStep 2 "--color-info")
                                11250 example_superseded).
  - intros t w' H. reflexivity.
  - reflexivity.
Defined.

Lemma decodeUrl_generateShareUrl_witness :
  generateShareUrl "https://findmeblink.example" "/index.html" (Some example_valid_config)
  = Some ("https://findmeblink.example" ++ "/index.html" ++ "?"
          ++ share_query example_valid_config) /\
  decodeUrl ("?" ++ share_query example_valid_config) = Some example_valid_config /\
  decodeUrl (share_query example_valid_config) = Some example_valid_config.
Proof.
  apply (decodeUrl_generateShareUrl "https://findmeblink.example" "/index.html"
                                    example_valid_config).
  exists "--color-info", "--color-error", "-.-.-.-.", 3.
  split; [reflexivity|]. cbn [In COLORS PATTERNS].
  repeat split; try tauto; try lia. discriminate.
Defined.

(** * Further properties of the code *)

(** ** ScheduleCalculator *)

Lemma ends_in_swap (digit1 digit2 : number) (c : Z) :
  ends_in digit1 digit2 c = ends_in digit2 digit1 c.
Proof. unfold ends_in. apply orb_comm. Qed.

Lemma search_swap (fuel : nat) (digit1 digit2 : number) :
  forall c, search fuel digit1 digit2 c = search fuel digit2 digit1 c.
Proof.
  induction fuel as [| fuel IH]; intros c; cbn [search]; [reflexivity|].
  rewrite ends_in_swap, IH. reflexivity.
Qed.

(** The digits [d] and [d + 5] give the same schedule: whatever the instant
    and however long the loop is let run, [getNextStartTime] behaves the
    same on both. *)
Theorem getNextStartTime_paired_digits (d : Z) (fuel : nat) (now : Z) :
  0 <= d <= 4 ->
  getNextStartTime fuel now (Int d) = getNextStartTime fuel now (Int (d + 5)).
Proof.
  intros Hd. unfold getNextStartTime. cbn [js_rem js_add].
  rewrite (Z.rem_small d 10), (Z.rem_small (d + 5) 10) by lia.
  replace (Z.rem (d + 5 + 5) 10) with d.
  - apply search_swap.
  - rewrite Z.rem_mod_nonneg by lia.
    Z.to_euclidean_division_equations. lia.
Qed.

Lemma getNextStartTime_paired_digits_witness :
  getNextStartTime 5 1700000012345 (Int 2) = getNextStartTime 5 1700000012345 (Int (2 + 5)).
Proof. apply (getNextStartTime_paired_digits 2 5 1700000012345). lia. Defined.

(** Whatever the loop returns is the start of a candidate second, never
    before the first candidate. *)
Lemma search_lower_bound (fuel : nat) (digit1 digit2 : number) :
  forall c r,
    search fuel digit1 digit2 c = Some r -> c * 1000 <= r /\ r mod 1000 = 0.
Proof.
  induction fuel as [| fuel IH]; intros c r; cbn [search]; [discriminate|].
  destruct (ends_in digit1 digit2 c).
  - intros [= <-]. split; [lia | apply Z.mod_mul; lia].
  - intros H. apply IH in H. lia.
Qed.

Lemma next_start_after_now (fuel : nat) (now : Z) (digit : number) (r : Z) :
  getNextStartTime fuel now digit = Some r ->
  now < r /\ r mod 1000 = 0.
Proof.
  unfold getNextStartTime. intros H. apply search_lower_bound in H.
  pose proof (Z.mod_pos_bound now 1000 eq_refl).
  pose proof (Z.div_mod now 1000). lia.
Qed.

(** Whenever [getNextStartTime] returns, for any argument at all (a digit,
    a number outside 0..9, [NaN]) and any instant, the value is a whole
    second strictly in the future. *)
Theorem getNextStartTime_returns_future (fuel : nat) (now : Z) (digit : number) (r : Z) :
  getNextStartTime fuel now digit = Some r ->
  now < r /\ r mod 1000 = 0.
Proof. exact (next_start_after_now fuel now digit r). Qed.

Lemma getNextStartTime_returns_future_witness :
  -25500 < -20000 /\ -20000 mod 1000 = 0.
Proof.
  apply (getNextStartTime_returns_future 50 (-25500) (Int 10) (-20000)).
  reflexivity.
Defined.

(** The value at a non-negative instant, by candidate seconds: it is the
    first of the five candidates whose last digit is in the target set. *)
Lemma next_start_shape (d now : Z) :
  0 <= d <= 9 -> 0 <= now ->
  exists j,
    0 <= j < 5 /\
    (forall fuel, (5 <= fuel)%nat ->
       getNextStartTime fuel now (Int d) = Some ((now / 1000 + 1 + j) * 1000)) /\
    digit_matches d (now / 1000 + 1 + j) /\
    forall i, 0 <= i < j -> ~ digit_matches d (now / 1000 + 1 + i).
Proof.
  intros Hd Hnow.
  assert (Hc : 0 <= now / 1000 + 1) by (pose proof (Z.div_pos now 1000); lia).
  destruct (search_five d Hd (now / 1000 + 1) Hc) as (j & Hj & Hs & Hit & Hmin).
  exists j. repeat split; try lia; auto.
  intros fuel Hfuel. unfold getNextStartTime.
  replace fuel with (5 + (fuel - 5))%nat by lia.
  apply search_more_fuel. exact Hs.
Qed.

Lemma next_start_stable (d now1 now2 r : Z) :
  0 <= d <= 9 -> 0 <= now1 <= now2 -> now2 < r ->
  getNextStartTime 5 now1 (Int d) = Some r ->
  forall fuel, (5 <= fuel)%nat -> getNextStartTime fuel now2 (Int d) = Some r.
Proof.
  intros Hd Hnow Hlt H1 fuel Hfuel.
  destruct (next_start_shape d now1 Hd) as (j1 & Hj1 & Hr1 & Hm1 & Hmin1); [lia|].
  destruct (next_start_shape d now2 Hd) as (j2 & Hj2 & Hr2 & Hm2 & Hmin2); [lia|].
  rewrite (Hr1 5%nat) in H1 by lia. injection H1 as <-.
  rewrite (Hr2 fuel Hfuel). f_equal. f_equal.
  assert (Hdiv : now1 / 1000 <= now2 / 1000) by (apply Z.div_le_mono; lia).
  assert (Hbelow : now2 / 1000 < now1 / 1000 + 1 + j1).
  { apply Z.div_lt_upper_bound; lia. }
  destruct (Z.lt_trichotomy (now2 / 1000 + 1 + j2) (now1 / 1000 + 1 + j1))
    as [Hlt' | [Heq | Hgt]]; [| lia |].
  - exfalso. apply (Hmin1 (now2 / 1000 + 1 + j2 - (now1 / 1000 + 1))); [lia|].
    replace (now1 / 1000 + 1 + (now2 / 1000 + 1 + j2 - (now1 / 1000 + 1)))
      with (now2 / 1000 + 1 + j2) by lia.
    exact Hm2.
  - exfalso. apply (Hmin2 (now1 / 1000 + 1 + j1 - (now2 / 1000 + 1))); [lia|].
    replace (now2 / 1000 + 1 + (now1 / 1000 + 1 + j1 - (now2 / 1000 + 1)))
      with (now1 / 1000 + 1 + j1) by lia.
    exact Hm1.
Qed.

(** Everyone who asks before the start instant gets the same start
    instant: if [getNextStartTime] gives [r] at [now1], it gives [r] at
    every later instant before [r]. *)
Theorem getNextStartTime_stable (d now1 now2 r : Z) :
  0 <= d <= 9 -> 0 <= now1 <= now2 -> now2 < r ->
  getNextStartTime 5 now1 (Int d) = Some r ->
  forall fuel, (5 <= fuel)%nat -> getNextStartTime fuel now2 (Int d) = Some r.
Proof. exact (next_start_stable d now1 now2 r). Qed.

Lemma getNextStartTime_stable_witness :
  getNextStartTime 7 1700000014999 (Int 3) = Some 1700000018000.
Proof.
  apply (getNextStartTime_stable 3 1700000013345 1700000014999 1700000018000);
    [lia | lia | lia | reflexivity | lia].
Defined.

Lemma next_start_period (d S now : Z) :
  0 <= d <= 9 -> 0 <= S -> S mod 1000 = 0 -> on_schedule d S ->
  S <= now < S + 5000 ->
  forall fuel, (5 <= fuel)%nat -> getNextStartTime fuel now (Int d) = Some (S + 5000).
Proof.
  intros Hd HS Hwhole Hon Hnow fuel Hfuel.
  destruct (next_start_shape d now Hd) as (j & Hj & Hr & Hm & Hmin); [lia|].
  rewrite (Hr fuel Hfuel). f_equal.
  unfold on_schedule in Hon.
  set (s := S / 1000) in *.
  assert (HSs : S = s * 1000).
  { unfold s. pose proof (Z.div_mod S 1000). lia. }
  assert (Hlo : s <= now / 1000) by (apply Z.div_le_lower_bound; lia).
  assert (Hhi : now / 1000 < s + 5) by (apply Z.div_lt_upper_bound; lia).
  assert (Hnext : digit_matches d (s + 5)).
  { unfold digit_matches, last_digit in *.
    Z.to_euclidean_division_equations. lia. }
  assert (Hle : now / 1000 + 1 + j <= s + 5).
  { destruct (Z.le_gt_cases (now / 1000 + 1 + j) (s + 5)) as [H | H]; [exact H|].
    exfalso. apply (Hmin (s + 5 - (now / 1000 + 1))); [lia|].
    replace (now / 1000 + 1 + (s + 5 - (now / 1000 + 1))) with (s + 5) by lia.
    exact Hnext. }
  assert (Hk : now / 1000 + 1 + j - (s + 1) = 4).
  { apply (hit_unique d (s + 1) 4 (now / 1000 + 1 + j - (s + 1))); try lia.
    - replace (s + 1 + 4) with (s + 5) by lia. exact Hnext.
    - replace (s + 1 + (now / 1000 + 1 + j - (s + 1))) with (now / 1000 + 1 + j) by lia.
      exact Hm. }
  lia.
Qed.

(** The schedule has a period of five seconds: from a scheduled instant
    [S] on, and until five seconds later, the next start is [S + 5000]. *)
Theorem getNextStartTime_period (d S now : Z) :
  0 <= d <= 9 -> 0 <= S -> S mod 1000 = 0 -> on_schedule d S ->
  S <= now < S + 5000 ->
  forall fuel, (5 <= fuel)%nat -> getNextStartTime fuel now (Int d) = Some (S + 5000).
Proof. exact (next_start_period d S now). Qed.

Lemma getNextStartTime_period_witness :
  getNextStartTime 7 1700000017000 (Int 3) = Some (1700000013000 + 5000).
Proof.
  apply (getNextStartTime_period 3 1700000013000 1700000017000);
    [lia | lia | reflexivity | | lia | lia].
  left. reflexivity.
Defined.

(** ** ConfigCodec *)

(** A link that lacks any of the four keys [c1], [c2], [p], [t] decodes to
    [null], whatever else it contains. *)
Theorem decodeUrl_null_when_key_missing (search : string) :
  let params := URLSearchParams_of_string search in
  has params "c1" = false \/ has params "c2" = false \/
  has params "p" = false \/ has params "t" = false ->
  decodeUrl search = None.
Proof. exact (decodeUrl_missing_key search). Qed.

Lemma decodeUrl_null_when_key_missing_witness : decodeUrl "?c1=0&c2=1&p=3" = None.
Proof.
  apply (decodeUrl_null_when_key_missing "?c1=0&c2=1&p=3").
  right. right. right. reflexivity.
Defined.

(** Whenever [decodeUrl] returns a configuration, the link had all four
    keys and each of its four numbers is either inside its range ([c1],
    [c2] in 0..5, [p] and [t] in 0..9) or [NaN]: an integer outside its
    range always gives [null]. *)
Theorem decodeUrl_validation (search : string) (c : BlinkConfig) :
  decodeUrl search = Some c ->
  let params := URLSearchParams_of_string search in
  (has params "c1" = true /\ has params "c2" = true /\
   has params "p" = true /\ has params "t" = true) /\
  passes_validation (parseInt (non_null (get params "c1"))) 0 6 /\
  passes_validation (parseInt (non_null (get params "c2"))) 0 6 /\
  passes_validation (parseInt (non_null (get params "p"))) 0 10 /\
  passes_validation (parseInt (non_null (get params "t"))) 0 10.
Proof. exact (decodeUrl_accepts search c). Qed.

Lemma decodeUrl_validation_witness :
  let params := URLSearchParams_of_string "?c1=x&c2=0&p=0&t=0" in
  (has params "c1" = true /\ has params "c2" = true /\
   has params "p" = true /\ has params "t" = true) /\
  passes_validation (parseInt (non_null (get params "c1"))) 0 6 /\
  passes_validation (parseInt (non_null (get params "c2"))) 0 6 /\
  passes_validation (parseInt (non_null (get params "p"))) 0 10 /\
  passes_validation (parseInt (non_null (get params "t"))) 0 10.
Proof.
  apply (decodeUrl_validation "?c1=x&c2=0&p=0&t=0"
           {| color1 := None;
              color2 := Some "--color-secondary";
              pattern := Some "..-..-.-..";
              timeOffset := Int 0 |}).
  reflexivity.
Defined.

(** The fields of a decoded configuration are the table entries at the
    parsed indices. *)
Lemma decodeUrl_fields (search : string) (c : BlinkConfig) :
  decodeUrl search = Some c ->
  let params := URLSearchParams_of_string search in
  c = {| color1 := array_get COLORS (parseInt (non_null (get params "c1")));
         color2 := array_get COLORS (parseInt (non_null (get params "c2")));
         pattern := array_get PATTERNS (parseInt (non_null (get params "p")));
         timeOffset := parseInt (non_null (get params "t")) |}.
Proof.
  unfold decodeUrl. cbv zeta.
  destruct (negb _ || negb _ || negb _ || negb _); [discriminate|].
  destruct (js_lt _ 0 || _ || _ || _ || _ || _ || _ || _); [discriminate|].
  intros [= <-]. reflexivity.
Qed.

Lemma table_member_decodes (c : BlinkConfig) :
  In c table_configs -> decodeUrl ("?" ++ share_query c) = Some c.
Proof.
  intros Hc. pose proof table_configs_decode_back as Hall.
  rewrite forallb_forall in Hall. specialize (Hall c Hc).
  apply andb_true_iff in Hall. apply decodes_to_eq. tauto.
Qed.

Lemma in_table_configs (a b p : string) (t : Z) :
  In a COLORS -> In b COLORS -> In p PATTERNS -> 0 <= t <= 9 ->
  In {| color1 := Some a; color2 := Some b; pattern := Some p; timeOffset := Int t |}
     table_configs.
Proof.
  intros Ha Hb Hp Ht. unfold table_configs.
  apply in_flat_map. exists a. split; [exact Ha|].
  apply in_flat_map. exists b. split; [exact Hb|].
  apply in_flat_map. exists p. split; [exact Hp|].
  apply in_map_iff. exists t. split; [reflexivity|].
  cbn [In]. lia.
Qed.

Lemma array_get_in (xs : list string) (z : Z) :
  0 <= z < Z.of_nat (List.length xs) ->
  exists x, array_get xs (Int z) = Some x /\ In x xs.
Proof.
  intros Hz. unfold array_get.
  destruct (Z.ltb_spec z 0); [lia|].
  destruct (nth_error xs (Z.to_nat z)) as [x |] eqn:E.
  - exists x. split; [reflexivity|]. eapply nth_error_In. exact E.
  - apply nth_error_None in E. lia.
Qed.

(** When all four parameters parse as integers, a configuration that
    [decodeUrl] returns has both colors in [COLORS], its pattern in
    [PATTERNS] and its time offset in 0..9, and writing it to a share URL
    and decoding that again gives the same configuration. *)
Theorem decodeUrl_integers_well_formed (search : string) (c : BlinkConfig)
        (i1 i2 ip it : Z) :
  let params := URLSearchParams_of_string search in
  decodeUrl search = Some c ->
  parseInt (non_null (get params "c1")) = Int i1 ->
  parseInt (non_null (get params "c2")) = Int i2 ->
  parseInt (non_null (get params "p")) = Int ip ->
  parseInt (non_null (get params "t")) = Int it ->
  (exists a b p,
      c = {| color1 := Some a; color2 := Some b; pattern := Some p;
             timeOffset := Int it |} /\
      In a COLORS /\ In b COLORS /\ In p PATTERNS /\ 0 <= it <= 9) /\
  decodeUrl ("?" ++ share_query c) = Some c.
Proof.
  intros params Hdec H1 H2 Hp Ht.
  pose proof (decodeUrl_accepts search c Hdec) as (_ & V1 & V2 & Vp & Vt).
  pose proof (decodeUrl_fields search c Hdec) as Hc.
  cbv zeta in *. fold params in V1, V2, Vp, Vt, Hc.
  rewrite H1 in *. rewrite H2 in *. rewrite Hp in *. rewrite Ht in *.
  cbn [passes_validation] in *.
  destruct (array_get_in COLORS i1) as (a & Ea & Ha); [cbn; lia|].
  destruct (array_get_in COLORS i2) as (b & Eb & Hb); [cbn; lia|].
  destruct (array_get_in PATTERNS ip) as (p & Ep & Hpat); [cbn; lia|].
  rewrite Ea, Eb, Ep in Hc.
  assert (Hin : In c table_configs) by (subst c; apply in_table_configs; auto; lia).
  split.
  - exists a, b, p. repeat split; auto; lia.
  - apply table_member_decodes. exact Hin.
Qed.

Lemma decodeUrl_integers_well_formed_witness :
  (exists a b p,
      example_decoded
      = {| color1 := Some a; color2 := Some b; pattern := Some p; timeOffset := Int 0 |} /\
      In a COLORS /\ In b COLORS /\ In p PATTERNS /\ 0 <= 0 <= 9) /\
  decodeUrl ("?" ++ share_query example_decoded) = Some example_decoded.
Proof.
  apply (decodeUrl_integers_well_formed "?c1=%31&c2=0x2&p= +9&t=-0" example_decoded 1 2 9 0);
    reflexivity.
Defined.

(** A configuration decoded from a link whose [t] does not parse has the
    time offset [NaN], and on it [getNextStartTime] never returns. *)
Theorem decoded_NaN_offset_hangs (search : string) (c : BlinkConfig) :
  decodeUrl search = Some c ->
  parseInt (non_null (get (URLSearchParams_of_string search) "t")) = NaN ->
  timeOffset c = NaN /\
  forall fuel now, getNextStartTime fuel now (timeOffset c) = None.
Proof.
  intros Hdec Ht. pose proof (decodeUrl_fields search c Hdec) as Hc.
  cbv zeta in Hc. rewrite Ht in Hc. subst c. cbn [timeOffset].
  split; [reflexivity|]. intros fuel now. apply getNextStartTime_NaN.
Qed.

Lemma decoded_NaN_offset_hangs_witness :
  timeOffset example_decoded_NaN = NaN /\
  forall fuel now, getNextStartTime fuel now (timeOffset example_decoded_NaN) = None.
Proof.
  apply (decoded_NaN_offset_hangs "?c1=0&c2=1&p=0&t=soon" example_decoded_NaN);
    reflexivity.
Defined.

(** Every configuration that [handlePlayClick] can generate (draws within
    the bounds of their [Math.floor(Math.random() * n)]) has both colors in
    [COLORS], a pattern of [PATTERNS] and a time offset in 0..4, and it
    decodes back from its own share URL, also when the two colors
    coincide. *)
Theorem drawn_config_decodes_back (dr : Draws) :
  (fst (draw_color1 dr) < 6)%nat -> (snd (draw_color1 dr) < 5)%nat ->
  (fst (draw_color2 dr) < 6)%nat -> (snd (draw_color2 dr) < 5)%nat ->
  (draw_pattern dr < 10)%nat -> (draw_offset dr < 5)%nat ->
  (exists a b p,
      drawn_config dr
      = {| color1 := Some a; color2 := Some b; pattern := Some p;
           timeOffset := Int (Z.of_nat (draw_offset dr)) |} /\
      In a COLORS /\ In b COLORS /\ In p PATTERNS) /\
  decodeUrl ("?" ++ share_query (drawn_config dr)) = Some (drawn_config dr).
Proof.
  destruct dr as [[d1 d2] [d3 d4] dp dt]. cbn [draw_color1 draw_color2 draw_pattern
                                               draw_offset fst snd].
  intros H1 H2 H3 H4 Hp Ht.
  unfold drawn_config, new_blinkConfig.
  cbn [draw_color1 draw_color2 draw_pattern draw_offset fst snd].
  assert (Ha : exists a, pair_color1 (getRandomColors d1 d2) = Some a /\ In a COLORS).
  { cbn [getRandomColors pair_color1].
    destruct (nth_error COLORS d1) as [a |] eqn:E.
    - exists a. split; [reflexivity|]. eapply nth_error_In. exact E.
    - apply nth_error_None in E. cbn in E. lia. }
  assert (Hb : exists b, pair_color2 (getRandomColors d3 d4) = Some b /\ In b COLORS).
  { assert (D3 : (d3 = 0 \/ d3 = 1 \/ d3 = 2 \/ d3 = 3 \/ d3 = 4 \/ d3 = 5)%nat) by lia.
    assert (D4 : (d4 = 0 \/ d4 = 1 \/ d4 = 2 \/ d4 = 3 \/ d4 = 4)%nat) by lia.
    destruct D3 as [-> | [-> | [-> | [-> | [-> | ->]]]]];
    destruct D4 as [-> | [-> | [-> | [-> | ->]]]];
      eexists; (split; [reflexivity | cbn; tauto]). }
  assert (Hpat : exists p, getRandomPattern dp = Some p /\ In p PATTERNS).
  { unfold getRandomPattern.
    destruct (nth_error PATTERNS dp) as [p |] eqn:E.
    - exists p. split; [reflexivity|]. eapply nth_error_In. exact E.
    - apply nth_error_None in E. cbn in E. lia. }
  destruct Ha as (a & -> & Ha). destruct Hb as (b & -> & Hb).
  destruct Hpat as (p & -> & Hpat).
  split.
  - exists a, b, p. auto.
  - apply table_member_decodes. apply in_table_configs; auto. lia.
Qed.

Lemma drawn_config_decodes_back_witness :
  (exists a b p,
      drawn_config example_draws
      = {| color1 := Some a; color2 := Some b; pattern := Some p;
           timeOffset := Int (Z.of_nat (draw_offset example_draws)) |} /\
      In a COLORS /\ In b COLORS /\ In p PATTERNS) /\
  decodeUrl ("?" ++ share_query (drawn_config example_draws))
  = Some (drawn_config example_draws).
Proof.
  apply (drawn_config_decodes_back example_draws); cbn; lia.
Defined.

(** ** SessionStateMachine and CountdownTicker *)

Section SessionMore.

Variable theme : string -> string.

(** A presentation refresh is idempotent. *)
Theorem updateUI_idempotent (w : World) :
  updateUI theme (updateUI theme w) = updateUI theme w.
Proof.
  destruct w as [st fl pa cid gen ivs bg ph b1 b2 b3 b4 txt].
  destruct cid as [id |]; [destruct (id =? 0) eqn:E|]; destruct st;
    unfold updateUI; cbn; rewrite ?E; cbn; rewrite ?E; reflexivity.
Qed.

(** A presentation refresh cancels the countdown ticker: its handle is no
    longer live and [countdownIntervalId] is [null]. *)
Theorem updateUI_cancels_countdown (w : World) (id : Z) :
  countdownIntervalId w = Some id -> id <> 0 ->
  countdownIntervalId (updateUI theme w) = None /\
  ~ In id (intervals (updateUI theme w)).
Proof.
  intros E Hid. unfold updateUI. rewrite E.
  apply Z.eqb_neq in Hid. rewrite Hid.
  cbn [clear_countdown currentState].
  destruct (currentState w); cbn; (split; [reflexivity|]);
    rewrite filter_In, Z.eqb_refl; cbn; intros [_ H]; discriminate.
Qed.

End SessionMore.

Lemma updateUI_cancels_countdown_witness :
  countdownIntervalId
    (updateUI example_theme (setInterval 7 (set_countdownIntervalId (Some 7) example_countdown)))
  = None /\
  ~ In 7 (intervals
            (updateUI example_theme
                      (setInterval 7 (set_countdownIntervalId (Some 7) example_countdown)))).
Proof.
  apply (updateUI_cancels_countdown example_theme
           (setInterval 7 (set_countdownIntervalId (Some 7) example_countdown)) 7).
  - reflexivity.
  - lia.
Defined.

Lemma ceil_div_bounds (a n : Z) :
  (n - 1) * 1000 < a <= n * 1000 -> ceil_div a 1000 = n.
Proof.
  intros H. unfold ceil_div.
  Z.to_euclidean_division_equations. lia.
Qed.

(** While the start instant computed by [getNextStartTime] lies ahead, the
    countdown shows "Starting in N" with N between 1 and 5, N being
    the number of seconds left rounded up. *)
Theorem countdown_shows_one_to_five (d now now' startTime : Z) (w : World) :
  0 <= d <= 9 -> 0 <= now ->
  getNextStartTime 5 now (Int d) = Some startTime ->
  now <= now' < startTime ->
  exists n,
    1 <= n <= 5 /\
    (n - 1) * 1000 < startTime - now' <= n * 1000 /\
    updateCountdown startTime now' w
    = set_countdownText_content ("Starting in " ++ toString (Int n)) w.
Proof.
  intros Hd Hnow Hst Hnow'.
  destruct (next_start_shape d now Hd Hnow) as (j & Hj & Hr & _).
  rewrite (Hr 5%nat) in Hst by lia. injection Hst as <-.
  pose proof (Z.mul_div_le now 1000 eq_refl).
  set (st := (now / 1000 + 1 + j) * 1000) in *.
  exists (ceil_div (st - now') 1000).
  assert (Hn : (ceil_div (st - now') 1000 - 1) * 1000 < st - now'
               <= ceil_div (st - now') 1000 * 1000).
  { unfold ceil_div. Z.to_euclidean_division_equations. lia. }
  split; [| split; [exact Hn|]].
  - assert (0 < st - now' <= 5000) by (unfold st in *; lia). lia.
  - unfold updateCountdown.
    destruct (Z.leb_spec (st - now') 0); [lia | reflexivity].
Qed.

Lemma countdown_shows_one_to_five_witness :
  exists n,
    1 <= n <= 5 /\
    (n - 1) * 1000 < 1700000018000 - 1700000015999 <= n * 1000 /\
    updateCountdown 1700000018000 1700000015999 example_countdown
    = set_countdownText_content ("Starting in " ++ toString (Int n)) example_countdown.
Proof.
  apply (countdown_shows_one_to_five 3 1700000013345 1700000015999 1700000018000
                                     example_countdown);
    [lia | lia | reflexivity | lia].
Defined.

Lemma In_filter_other (h id : Z) (l : list Z) :
  In h (filter (fun x => negb (x =? id)) l) <-> In h l /\ h <> id.
Proof.
  rewrite filter_In, negb_true_iff, Z.eqb_neq. reflexivity.
Qed.

(** The ticker of [startCountdown]: once started its handle is live and the
    handle of the ticker it replaces is not; the first tick at or after the
    start instant stops it, leaving the text as it was, and every later
    tick does nothing. *)
Theorem countdown_ticker_lifecycle (startTime now now' now'' handle : Z) (w : World) :
  startTime <= now' ->
  let w1 := startCountdown startTime now handle w in
  let w2 := countdown_tick handle startTime now' w1 in
  (countdownIntervalId w1 = Some handle /\ In handle (intervals w1) /\
   forall old, countdownIntervalId w = Some old -> old <> handle ->
               ~ In old (intervals w1)) /\
  (countdownIntervalId w2 = None /\ ~ In handle (intervals w2) /\
   countdownText_content w2 = countdownText_content w1) /\
  countdown_tick handle startTime now'' w2 = w2.
Proof.
  intros Hlate w1 w2.
  assert (Hlive : In handle (intervals w1)).
  { unfold w1, startCountdown, setInterval. cbn [intervals set_countdownIntervalId
                                                  set_intervals].
    apply in_or_app. right. left. reflexivity. }
  assert (Hid : countdownIntervalId w1 = Some handle) by reflexivity.
  assert (Hw2 : w2 = set_countdownIntervalId None (clearInterval handle w1)).
  { unfold w2, countdown_tick.
    assert (E : existsb (Z.eqb handle) (intervals w1) = true).
    { apply existsb_exists. exists handle. split; [exact Hlive | apply Z.eqb_refl]. }
    rewrite E. unfold updateCountdown.
    destruct (Z.leb_spec (startTime - now') 0); [| lia].
    rewrite Hid. reflexivity. }
  assert (Hgone : ~ In handle (intervals w2)).
  { rewrite Hw2. cbn [intervals set_countdownIntervalId clearInterval set_intervals].
    rewrite In_filter_other. tauto. }
  split; [split; [exact Hid | split; [exact Hlive|]] | split; [split; [| split]|]].
  - intros old Hold Hne.
    unfold w1, startCountdown, setInterval. rewrite Hold.
    cbn [intervals set_countdownIntervalId set_intervals].
    intros Hin. apply in_app_or in Hin. destruct Hin as [Hin | [Heq | []]]; [| congruence].
    unfold updateCountdown in Hin.
    destruct (startTime - now <=? 0);
      cbn [countdownIntervalId clearInterval set_intervals intervals
           set_countdownIntervalId set_countdownText_content] in Hin;
      rewrite ?Hold in Hin;
      cbn [clearInterval set_intervals intervals] in Hin;
      repeat rewrite In_filter_other in Hin; tauto.
  - rewrite Hw2. reflexivity.
  - exact Hgone.
  - rewrite Hw2. reflexivity.
  - unfold countdown_tick.
    destruct (existsb (Z.eqb handle) (intervals w2)) eqn:E; [| reflexivity].
    exfalso. apply existsb_exists in E. destruct E as (h & Hin & Heq).
    apply Z.eqb_eq in Heq. subst h. exact (Hgone Hin).
Qed.

Lemma countdown_ticker_lifecycle_witness :
  let w1 := startCountdown 1700000018000 1700000013345 7 example_countdown in
  let w2 := countdown_tick 7 1700000018000 1700000018040 w1 in
  (countdownIntervalId w1 = Some 7 /\ In 7 (intervals w1) /\
   forall old, countdownIntervalId example_countdown = Some old -> old <> 7 ->
               ~ In old (intervals w1)) /\
  (countdownIntervalId w2 = None /\ ~ In 7 (intervals w2) /\
   countdownText_content w2 = countdownText_content w1) /\
  countdown_tick 7 1700000018000 1700000018140 w2 = w2.
Proof.
  apply (countdown_ticker_lifecycle 1700000018000 1700000013345 1700000018040
                                    1700000018140 7 example_countdown).
  lia.
Defined.

(** ** AnimationEngine: what the loop keeps and what it never does *)

Section Loop.

Variable theme : string -> string.

Lemma for_loop_currentAnimationId (fuel : nat) (a : Animation) (now : Z) (i : nat)
      (c : string) (w : World) :
  currentAnimationId (fst (for_loop fuel a now i c w)) = currentAnimationId w.
Proof.
  unfold for_loop.
  destruct (pattern (config a)) as [p |]; [| reflexivity].
  destruct (i <? String.length p)%nat.
  - destruct (stale a w); [reflexivity|].
    destruct (shouldPauseBackground w); reflexivity.
  - destruct (getNextStartTime fuel now (timeOffset (config a))) as [next |];
      [destruct (next - now >? 0)|]; reflexivity.
Qed.

(** No stretch of the loop changes the generation counter. *)
Lemma resume_currentAnimationId (fuel : nat) (a : Animation) (k : Cont) (now : Z)
      (w : World) :
  currentAnimationId (fst (resume theme fuel a k now w)) = currentAnimationId w.
Proof.
  assert (Hstart : currentAnimationId (fst (after_start_wait theme fuel a now w))
                   = currentAnimationId w).
  { unfold after_start_wait.
    destruct (stale a w || shouldPauseBackground w).
    - destruct (shouldPauseBackground w); reflexivity.
    - rewrite for_loop_currentAnimationId. apply start_flashing_currentAnimationId. }
  destruct k as [| | i c]; cbn [resume].
  - unfold runPattern. destruct (stale a w); [reflexivity|].
    destruct (shouldPauseBackground w); [reflexivity|].
    destruct (startTime a - now >? 0); [reflexivity | exact Hstart].
  - exact Hstart.
  - apply for_loop_currentAnimationId.
Qed.

(** A stretch of a paused loop writes nothing or only the reset, and the
    pause flag is as it was. *)
Lemma resume_paused (fuel : nat) (a : Animation) (k : Cont) (now : Z) (w : World) :
  shouldPauseBackground w = true ->
  (fst (resume theme fuel a k now w) = w \/
   fst (resume theme fuel a k now w) = reset_background a w) /\
  shouldPauseBackground (fst (resume theme fuel a k now w)) = true.
Proof.
  intros H. destruct k as [| | i c]; cbn [resume].
  - unfold runPattern. rewrite H. destruct (stale a w); cbn [fst]; auto.
  - unfold after_start_wait. rewrite H, orb_true_r. cbn [fst]. auto.
  - split; [| destruct (for_loop_phase fuel a now (S i)
                          (if String.eqb c (color1Value a) then color2Value a
                           else color1Value a) w) as [_ ->]; exact H].
    unfold for_loop.
    destruct (pattern (config a)) as [p |]; [| cbn [fst]; auto].
    destruct (S i <? String.length p)%nat.
    + rewrite H. destruct (stale a w); cbn [fst]; auto.
    + destruct (getNextStartTime fuel now (timeOffset (config a))) as [next |];
        [destruct (next - now >? 0)|]; cbn [fst]; auto.
Qed.

(** While the pause flag stays set the loop never paints: whatever its
    generation and wherever it resumes, every stretch leaves the session
    state as it found it or only resets the background to the neutral
    color. *)
Theorem paused_loop_only_resets (env : Z -> World -> World) (n fuel : nat)
        (a : Animation) (k : Cont) (now : Z) (w : World) :
  (forall t w', shouldPauseBackground w' = true ->
                shouldPauseBackground (env t w') = true) ->
  shouldPauseBackground w = true ->
  Forall (at_most_reset a) (run_with theme env n fuel a k now w).
Proof.
  intros Henv. revert k now w.
  induction n as [| n IH]; intros k now w Hw; cbn [run_with]; [constructor|].
  pose proof (resume_paused fuel a k now (env now w) (Henv now w Hw)) as [Hfst Hp].
  destruct (resume theme fuel a k now (env now w)) as [w1 o].
  cbn [fst] in Hfst, Hp.
  constructor; [exact Hfst|].
  destruct o; try constructor; apply IH; exact Hp.
Qed.

End Loop.

Lemma paused_loop_only_resets_witness :
  Forall (at_most_reset example_long_animation)
         (run_with example_theme (fun _ w => w) 4 5 example_long_animation
                   (AfterStep 2 "--color-info") 11250
                   (setState example_theme WELCOME example_countdown)).
Proof.
  apply (paused_loop_only_resets example_theme (fun _ w => w) 4 5 example_long_animation
                                 (AfterStep 2 "--color-info") 11250
                                 (setState example_theme WELCOME example_countdown)).
  - intros t w' H. exact H.
  - reflexivity.
Defined.

(** ** The click handlers and the load listener *)

Lemma countdown_text_ahead (startTime now : Z) (w : World) :
  0 < startTime - now <= 5000 ->
  1 <= ceil_div (startTime - now) 1000 <= 5 /\
  updateCountdown startTime now w
  = set_countdownText_content
      ("Starting in " ++ toString (Int (ceil_div (startTime - now) 1000))) w.
Proof.
  intros H. split.
  - unfold ceil_div. Z.to_euclidean_division_equations. lia.
  - unfold updateCountdown.
    destruct (Z.leb_spec (startTime - now) 0); [lia | reflexivity].
Qed.

Section HandlersMore.

Variable theme : string -> string.

(** What [startCountdown] leaves alone: phase, flags, generation, background. *)
Lemma startCountdown_keeps (startTime now handle : Z) (w : World) :
  let w' := startCountdown startTime now handle w in
  currentState w' = currentState w /\
  shouldPauseBackground w' = shouldPauseBackground w /\
  currentAnimationId w' = currentAnimationId w /\
  backgroundColor w' = backgroundColor w /\
  isBackgroundFlashing w' = isBackgroundFlashing w.
Proof.
  destruct w as [st fl pa cid gen ivs bg ph b1 b2 b3 b4 txt].
  unfold startCountdown, updateCountdown.
  destruct cid as [id |]; cbn; destruct (startTime - now <=? 0); cbn; auto 6.
Qed.


Lemma start_countdown_and_blinking_generation (fuel : nat) (handle now : Z)
      (s : Session) :
  let r := start_countdown_and_blinking theme fuel handle now s in
  currentAnimationId (world (session_of r)) = currentAnimationId (world s) + 1 /\
  forall s' a o, r = PlayStarted s' a o ->
                 animationId a = currentAnimationId (world s) + 1.
Proof.
  cbv zeta. unfold start_countdown_and_blinking.
  assert (Hgen : currentAnimationId
                   (set_currentAnimationId
                      (currentAnimationId (setState theme COUNTDOWN (world s)) + 1)
                      (setState theme COUNTDOWN (world s)))
                 = currentAnimationId (world s) + 1).
  { cbn [set_currentAnimationId currentAnimationId]. unfold setState.
    rewrite updateUI_currentAnimationId. reflexivity. }
  set (w := set_currentAnimationId _ _) in *.
  destruct (blinkConfig s) as [cfg |]; [| split; [exact Hgen | discriminate]].
  destruct (getNextStartTime fuel now (timeOffset cfg)) as [st |];
    [| split; [exact Hgen | discriminate]].
  pose proof (startCountdown_keeps st now handle w) as (_ & _ & Hc & _).
  pose proof (resume_currentAnimationId theme fuel
                (animateBackgroundColor theme cfg st
                   (currentAnimationId (startCountdown st now handle w)))
                AtEntry now (startCountdown st now handle w)) as Hr.
  cbn [resume] in Hr.
  destruct (runPattern theme fuel _ now _) as [w' o]. cbn [fst] in Hr.
  cbn [session_of world set_world]. split; [rewrite Hr, Hc; exact Hgen|].
  intros s' a o' [= <- <- <-]. exact (eq_trans Hc Hgen).
Qed.

(** A Play that gets past the share starts a new generation: the counter
    goes up by one, every animation of an earlier generation is stale from
    then on, and the animation that the call starts is live. *)
Theorem handlePlayClick_supersedes (fuel : nat) (b : Browser) (dr : Draws)
        (handle now : Z) (s : Session) (a0 : Animation) :
  (forall s', handlePlayClick theme fuel b dr handle now s <> PlayFallback s') ->
  animationId a0 <= currentAnimationId (world s) ->
  let r := handlePlayClick theme fuel b dr handle now s in
  currentAnimationId (world (session_of r)) = currentAnimationId (world s) + 1 /\
  stale a0 (world (session_of r)) = true /\
  forall s' a o, r = PlayStarted s' a o -> stale a (world s') = false.
Proof.
  intros Hno Hold. cbv zeta.
  assert (Hshape : exists s1,
            world s1 = world s /\
            handlePlayClick theme fuel b dr handle now s
            = start_countdown_and_blinking theme fuel handle now s1).
  { unfold handlePlayClick in *.
    destruct (blinkConfig s); [exists s; auto|].
    destruct (Role_eqb (currentRole s) INITIATOR); [| exists s; auto].
    destruct (negb _).
    - exfalso. eapply Hno. reflexivity.
    - eexists. split; [| reflexivity]. reflexivity. }
  destruct Hshape as (s1 & Hw & ->).
  pose proof (start_countdown_and_blinking_generation fuel handle now s1) as [Hgen Ha].
  cbv zeta in Hgen, Ha. rewrite Hw in Hgen, Ha.
  split; [exact Hgen | split].
  - unfold stale. rewrite Hgen.
    apply negb_true_iff, Z.eqb_neq. lia.
  - intros s' a o E. specialize (Ha s' a o E).
    rewrite E in Hgen. cbn [session_of] in Hgen.
    unfold stale. rewrite Ha, Hgen, Z.eqb_refl. reflexivity.
Qed.

Lemma play_starts (fuel : nat) (b : Browser) (dr : Draws)
        (handle now d : Z) (s : Session) (cfg : BlinkConfig) :
  blinkConfig s = Some cfg -> timeOffset cfg = Int d ->
  0 <= d <= 9 -> 0 <= now -> (5 <= fuel)%nat ->
  exists startTime s' n,
    getNextStartTime 5 now (Int d) = Some startTime /\
    handlePlayClick theme fuel b dr handle now s
    = PlayStarted s'
        (animateBackgroundColor theme cfg startTime (currentAnimationId (world s) + 1))
        (Await (startTime - now) AfterStartWait) /\
    blinkConfig s' = Some cfg /\
    session_startTime s' = Some startTime /\
    currentState (world s') = COUNTDOWN /\
    countdownIntervalId (world s') = Some handle /\
    1 <= n <= 5 /\
    countdownText_content (world s') = "Starting in " ++ toString (Int n) /\
    backgroundColor (world s') = backgroundColor (world s).
Proof.
  intros Hcfg Hoff Hd Hnow Hfuel.
  destruct (next_start_shape d now Hd Hnow) as (j & Hj & Hr & _).
  set (st := (now / 1000 + 1 + j) * 1000) in *.
  assert (Hlt : 0 < st - now <= 5000).
  { pose proof (Z.mul_div_le now 1000 eq_refl).
    pose proof (Z.mod_pos_bound now 1000 eq_refl).
    pose proof (Z.div_mod now 1000). unfold st. lia. }
  set (w := set_currentAnimationId
              (currentAnimationId (setState theme COUNTDOWN (world s)) + 1)
              (setState theme COUNTDOWN (world s))).
  exists st, (set_world (startCountdown st now handle w)
                        (set_session_startTime (Some st) s)),
         (ceil_div (st - now) 1000).
  split; [apply Hr; lia|].
  pose proof (startCountdown_keeps st now handle w) as (Hst & Hpa & Hgen & Hbg & _).
  assert (Hw_state : currentState w = COUNTDOWN).
  { unfold w. cbn [set_currentAnimationId currentState]. unfold setState.
    rewrite updateUI_currentState. reflexivity. }
  assert (Hw_pause : shouldPauseBackground w = false).
  { unfold w. cbn [set_currentAnimationId shouldPauseBackground]. unfold setState.
    rewrite updateUI_shouldPauseBackground. reflexivity. }
  assert (Hw_gen : currentAnimationId w = currentAnimationId (world s) + 1).
  { unfold w. cbn [set_currentAnimationId currentAnimationId]. unfold setState.
    rewrite updateUI_currentAnimationId. reflexivity. }
  assert (Hw_bg : backgroundColor w = backgroundColor (world s)).
  { unfold w. cbn [set_currentAnimationId backgroundColor]. unfold setState.
    rewrite updateUI_backgroundColor. reflexivity. }
  assert (Htext : countdownText_content (startCountdown st now handle w)
                  = "Starting in " ++ toString (Int (ceil_div (st - now) 1000))).
  { unfold startCountdown, setInterval.
    cbn [set_countdownIntervalId set_intervals countdownText_content].
    destruct (countdownIntervalId w) as [id |];
      rewrite (proj2 (countdown_text_ahead st now _ Hlt)); reflexivity. }
  split; [| cbn [world set_world blinkConfig session_startTime set_session_startTime]].
  - unfold handlePlayClick. rewrite Hcfg.
    unfold start_countdown_and_blinking. rewrite Hcfg, Hoff. fold w.
    rewrite (Hr fuel Hfuel).
    unfold runPattern, stale.
    cbn [animateBackgroundColor animationId startTime].
    rewrite Z.eqb_refl. cbn [negb]. rewrite Hpa, Hw_pause.
    destruct (Z.gtb_spec (st - now) 0); [| lia].
    rewrite Hgen, Hw_gen. reflexivity.
  - split; [exact Hcfg|]. split; [reflexivity|].
    split; [rewrite Hst; exact Hw_state|].
    split; [reflexivity|].
    split; [exact (proj1 (countdown_text_ahead st now w Hlt))|].
    split; [exact Htext|].
    rewrite Hbg. exact Hw_bg.
Qed.

(** Play with a configuration in hand (a receiver, or an initiator after
    the share): the start instant is the one [getNextStartTime] gives, the
    phase is [COUNTDOWN], the countdown ticker runs and shows 1 to 5
    seconds, nothing is painted yet, and the loop is suspended until the
    start instant. *)
Theorem handlePlayClick_starts (fuel : nat) (b : Browser) (dr : Draws)
        (handle now d : Z) (s : Session) (cfg : BlinkConfig) :
  blinkConfig s = Some cfg -> timeOffset cfg = Int d ->
  0 <= d <= 9 -> 0 <= now -> (5 <= fuel)%nat ->
  exists startTime s' n,
    getNextStartTime 5 now (Int d) = Some startTime /\
    handlePlayClick theme fuel b dr handle now s
    = PlayStarted s'
        (animateBackgroundColor theme cfg startTime (currentAnimationId (world s) + 1))
        (Await (startTime - now) AfterStartWait) /\
    blinkConfig s' = Some cfg /\
    session_startTime s' = Some startTime /\
    currentState (world s') = COUNTDOWN /\
    countdownIntervalId (world s') = Some handle /\
    1 <= n <= 5 /\
    countdownText_content (world s') = "Starting in " ++ toString (Int n) /\
    backgroundColor (world s') = backgroundColor (world s).
Proof. exact (play_starts fuel b dr handle now d s cfg). Qed.

(** A receiver that cancels has no configuration left, and its next Play
    starts nothing: the phase becomes [COUNTDOWN] with the text of
    [updateUI], no ticker runs and no animation is created. *)
Theorem receiver_play_after_cancel (fuel : nat) (b : Browser) (dr : Draws)
        (handle now : Z) (s : Session) :
  currentRole s = RECEIVER ->
  exists s',
    handlePlayClick theme fuel b dr handle now (handleCancelClick theme s) = PlayIdle s' /\
    blinkConfig s' = None /\
    currentState (world s') = COUNTDOWN /\
    countdownText_content (world s') = "Starting in 3" /\
    (forall id, countdownIntervalId (world s') = Some id -> id = 0) /\
    currentAnimationId (world s') = currentAnimationId (world s) + 1.
Proof.
  intros Hrole. unfold handlePlayClick, handleCancelClick.
  cbn [blinkConfig set_world set_instructions set_blinkConfig currentRole].
  rewrite Hrole. cbn [Role_eqb].
  unfold start_countdown_and_blinking.
  cbn [blinkConfig set_world set_instructions set_blinkConfig world].
  eexists. split; [reflexivity|].
  cbn [blinkConfig set_world world set_currentAnimationId currentState
       countdownText_content countdownIntervalId currentAnimationId].
  unfold setState. rewrite !updateUI_currentAnimationId.
  split; [reflexivity|].
  destruct (world s) as [st fl pa cid gen ivs bg ph b1 b2 b3 b4 txt].
  destruct cid as [id |]; [destruct (id =? 0) eqn:E|];
    unfold updateUI; cbn; rewrite ?E; cbn; rewrite ?E; cbn;
    repeat split; try reflexivity; intros id' [= <-]; try discriminate;
    apply Z.eqb_eq; exact E.
Qed.


(** After Cancel the screen stays neutral: the phase is [WELCOME], the
    configuration is gone, the generation counter is as it was, and an
    animation left running, of any generation and wherever it resumes,
    leaves the background at the neutral color after every stretch. *)
Theorem cancel_quiets_loop (n fuel : nat) (cfg : BlinkConfig) (startTime id : Z)
        (k : Cont) (now : Z) (s : Session) :
  let s' := handleCancelClick theme s in
  let a := animateBackgroundColor theme cfg startTime id in
  blinkConfig s' = None /\
  currentRole s' = currentRole s /\
  currentState (world s') = WELCOME /\
  currentAnimationId (world s') = currentAnimationId (world s) /\
  backgroundColor (world s') = defaultColor a /\
  Forall (stays_neutral a) (run theme n fuel a k now (world s')).
Proof.
  cbv zeta. set (a := animateBackgroundColor theme cfg startTime id).
  unfold handleCancelClick.
  cbn [set_world set_instructions set_blinkConfig world blinkConfig currentRole].
  unfold setState.
  rewrite updateUI_currentState, updateUI_currentAnimationId.
  assert (Hbg : backgroundColor (updateUI theme (set_currentState WELCOME (world s)))
                = defaultColor a) by (rewrite updateUI_backgroundColor; reflexivity).
  assert (Hpa : shouldPauseBackground (updateUI theme (set_currentState WELCOME (world s)))
                = true) by (rewrite updateUI_shouldPauseBackground; reflexivity).
  repeat split; try reflexivity; try exact Hbg.
  revert Hbg Hpa. generalize (updateUI theme (set_currentState WELCOME (world s))).
  unfold run. revert k now.
  induction n as [| n IH]; intros k now w Hbg Hpa; cbn [run_with]; [constructor|].
  pose proof (resume_paused theme fuel a k now w Hpa) as [Hfst Hp].
  destruct (resume theme fuel a k now w) as [w1 o]. cbn [fst] in Hfst, Hp.
  assert (Hbg1 : backgroundColor w1 = defaultColor a).
  { destruct Hfst as [-> | ->]; [exact Hbg | reflexivity]. }
  constructor; [exact Hbg1|].
  destruct o; try constructor; apply IH; assumption.
Qed.

(** Two sessions that hold the same valid configuration agree on the start
    instant: if one starts at [now1] and the other presses Play later but
    before that start instant, both animations have the same start time,
    the same pattern and the same colors. *)
Theorem same_config_same_start (fuel : nat) (b1 b2 : Browser) (dr1 dr2 : Draws)
        (h1 h2 now1 now2 : Z) (s1 s2 s1' : Session) (c : BlinkConfig)
        (a1 : Animation) (o1 : Outcome) :
  valid_config c -> blinkConfig s1 = Some c -> blinkConfig s2 = Some c ->
  (5 <= fuel)%nat -> 0 <= now1 <= now2 ->
  handlePlayClick theme fuel b1 dr1 h1 now1 s1 = PlayStarted s1' a1 o1 ->
  now2 < startTime a1 ->
  exists s2' a2,
    handlePlayClick theme fuel b2 dr2 h2 now2 s2
    = PlayStarted s2' a2 (Await (startTime a1 - now2) AfterStartWait) /\
    startTime a2 = startTime a1 /\
    config a2 = c /\ config a1 = c /\
    color1Value a2 = color1Value a1 /\
    color2Value a2 = color2Value a1 /\
    defaultColor a2 = defaultColor a1.
Proof.
  intros Hvalid Hc1 Hc2 Hfuel Hnow Hplay Hbefore.
  pose proof Hvalid as (ca & cb & p & t & Hc & _ & _ & _ & _ & Ht).
  assert (Hoff : timeOffset c = Int t) by (rewrite Hc; reflexivity).
  destruct (play_starts fuel b1 dr1 h1 now1 t s1 c Hc1 Hoff Ht) as
      (st1 & s1'' & n1 & Hst1 & Hp1 & _); [lia | lia |].
  rewrite Hp1 in Hplay. injection Hplay as <- <- <-.
  cbn [animateBackgroundColor startTime] in Hbefore.
  destruct (play_starts fuel b2 dr2 h2 now2 t s2 c Hc2 Hoff Ht) as
      (st2 & s2' & n2 & Hst2 & Hp2 & _); [lia | lia |].
  assert (Heq : st2 = st1).
  { pose proof (next_start_stable t now1 now2 st1 Ht Hnow Hbefore Hst1 5%nat
                  (Nat.le_refl 5)) as H.
    congruence. }
  subst st2.
  exists s2', (animateBackgroundColor theme c st1 (currentAnimationId (world s2) + 1)).
  split; [exact Hp2|]. cbn. repeat split; reflexivity.
Qed.

Lemma changeColor_keeps (draw : nat) (coin : bool) (w : World) :
  let w' := fst (changeColor theme draw coin w) in
  currentState w' = currentState w /\
  shouldPauseBackground w' = shouldPauseBackground w /\
  currentAnimationId w' = currentAnimationId w /\
  backgroundColor w' = backgroundColor w.
Proof.
  unfold changeColor.
  destruct (phoneHolder w); [destruct (currentState w) eqn:E|]; cbn; auto.
Qed.

(** Loading the page from a share URL makes the session a receiver of the
    shared configuration: for a valid configuration [c] and the URL that
    [generateShareUrl] writes for it, the load listener sets the role to
    [RECEIVER] and the configuration to [c], in phase [WELCOME] with the
    animation paused. *)
Theorem shared_link_makes_receiver (origin pathname url : string) (c : BlinkConfig)
        (page : Page) (draw : nat) (coin wordSwap : bool) (handle : Z) :
  valid_config c ->
  mentions "?" (origin ++ pathname) = false ->
  mentions "#" (origin ++ pathname) = false ->
  generateShareUrl origin pathname (Some c) = Some url ->
  let s := onDOMContentLoaded theme (location_search url) page draw coin wordSwap handle in
  currentRole s = RECEIVER /\
  blinkConfig s = Some c /\
  instructions s = InstructionsReceiver /\
  currentState (world s) = WELCOME /\
  shouldPauseBackground (world s) = true /\
  currentAnimationId (world s) = 0.
Proof.
  intros Hvalid Hq Hh Hurl s.
  destruct (decodeUrl_of_shared_page origin pathname c Hvalid Hq Hh)
    as (url' & Hurl' & _ & Hdec).
  assert (url' = url) by congruence. subst url'.
  pose proof (changeColor_keeps draw coin (updateUI theme (initial_world page)))
    as (Hst & Hpa & Hgen & _). cbv zeta in Hst, Hpa, Hgen.
  rewrite updateUI_currentState in Hst.
  rewrite updateUI_shouldPauseBackground in Hpa.
  rewrite updateUI_currentAnimationId in Hgen.
  unfold s, onDOMContentLoaded. rewrite Hdec.
  destruct wordSwap;
    cbn [set_world world blinkConfig currentRole instructions setInterval set_intervals
         currentState shouldPauseBackground currentAnimationId];
    repeat split; assumption.
Qed.

(** Loading the page with any of the four parameters missing leaves the
    session an initiator without a configuration. *)
Theorem incomplete_link_makes_initiator (search : string) (page : Page) (draw : nat)
        (coin wordSwap : bool) (handle : Z) :
  let params := URLSearchParams_of_string search in
  has params "c1" = false \/ has params "c2" = false \/
  has params "p" = false \/ has params "t" = false ->
  let s := onDOMContentLoaded theme search page draw coin wordSwap handle in
  currentRole s = INITIATOR /\ blinkConfig s = None /\
  instructions s = InstructionsOfPage /\
  currentState (world s) = WELCOME.
Proof.
  intros params Hmiss s.
  pose proof (decodeUrl_missing_key search Hmiss) as Hdec.
  pose proof (changeColor_keeps draw coin (updateUI theme (initial_world page)))
    as (Hst & _). cbv zeta in Hst. rewrite updateUI_currentState in Hst.
  unfold s, onDOMContentLoaded. rewrite Hdec.
  destruct wordSwap;
    cbn [set_world world blinkConfig currentRole instructions setInterval set_intervals
         currentState]; repeat split; assumption.
Qed.

End HandlersMore.

Lemma handlePlayClick_supersedes_witness :
  let r := handlePlayClick example_theme 5 example_browser example_draws 7 1700000013345
                           example_receiver in
  currentAnimationId (world (session_of r)) = currentAnimationId (world example_receiver) + 1 /\
  stale (animateBackgroundColor example_theme example_config 10000 0)
        (world (session_of r)) = true /\
  forall s' a o, r = PlayStarted s' a o -> stale a (world s') = false.
Proof.
  apply (handlePlayClick_supersedes example_theme 5 example_browser example_draws 7
                                    1700000013345 example_receiver
                                    (animateBackgroundColor example_theme example_config
                                                            10000 0)).
  - intros s'. vm_compute. discriminate.
  - vm_compute. discriminate.
Defined.

Lemma handlePlayClick_starts_witness :
  exists startTime s' n,
    getNextStartTime 5 1700000013345 (Int 3) = Some startTime /\
    handlePlayClick example_theme 5 example_browser example_draws 7 1700000013345
                    example_receiver
    = PlayStarted s'
        (animateBackgroundColor example_theme
           {| color1 := Some "--color-info"; color2 := Some "--color-error";
              pattern := Some "-.-.-.-."; timeOffset := Int 3 |}
           startTime (currentAnimationId (world example_receiver) + 1))
        (Await (startTime - 1700000013345) AfterStartWait) /\
    blinkConfig s'
    = Some {| color1 := Some "--color-info"; color2 := Some "--color-error";
              pattern := Some "-.-.-.-."; timeOffset := Int 3 |} /\
    session_startTime s' = Some startTime /\
    currentState (world s') = COUNTDOWN /\
    countdownIntervalId (world s') = Some 7 /\
    1 <= n <= 5 /\
    countdownText_content (world s') = "Starting in " ++ toString (Int n) /\
    backgroundColor (world s') = backgroundColor (world example_receiver).
Proof.
  apply (handlePlayClick_starts example_theme 5 example_browser example_draws 7
                                1700000013345 3 example_receiver);
    [reflexivity | reflexivity | lia | lia | lia].
Defined.

Lemma receiver_play_after_cancel_witness :
  exists s',
    handlePlayClick example_theme 5 example_browser example_draws 7 1700000013345
                    (handleCancelClick example_theme example_receiver) = PlayIdle s' /\
    blinkConfig s' = None /\
    currentState (world s') = COUNTDOWN /\
    countdownText_content (world s') = "Starting in 3" /\
    (forall id, countdownIntervalId (world s') = Some id -> id = 0) /\
    currentAnimationId (world s') = currentAnimationId (world example_receiver) + 1.
Proof.
  apply (receiver_play_after_cancel example_theme 5 example_browser example_draws 7
                                    1700000013345 example_receiver).
  reflexivity.
Defined.


Lemma incomplete_link_makes_initiator_witness :
  let s := onDOMContentLoaded example_theme "?c1=0&c2=1&p=3" example_page 0 true true 3 in
  currentRole s = INITIATOR /\ blinkConfig s = None /\
  instructions s = InstructionsOfPage /\
  currentState (world s) = WELCOME.
Proof.
  apply (incomplete_link_makes_initiator example_theme "?c1=0&c2=1&p=3" example_page 0
                                         true true 3).
  right. right. right. reflexivity.
Defined.

Lemma shared_link_makes_receiver_witness :
  let s := onDOMContentLoaded example_theme
             (location_search
                ("https://findmeblink.example" ++ "/index.html" ++ "?"
                 ++ share_query example_valid_config))
             example_page 0 true true 3 in
  currentRole s = RECEIVER /\
  blinkConfig s = Some example_valid_config /\
  instructions s = InstructionsReceiver /\
  currentState (world s) = WELCOME /\
  shouldPauseBackground (world s) = true /\
  currentAnimationId (world s) = 0.
Proof.
  apply (shared_link_makes_receiver example_theme "https://findmeblink.example"
                                    "/index.html" _ example_valid_config example_page
                                    0 true true 3).
  - exists "--color-info", "--color-error", "-.-.-.-.", 3.
    split; [reflexivity|]. cbn [In COLORS PATTERNS].
    repeat split; try tauto; try lia. discriminate.
  - reflexivity.
  - reflexivity.
  - reflexivity.
Defined.

Lemma same_config_same_start_witness :
  exists s2' a2,
    handlePlayClick example_theme 5 example_browser example_draws 8 1700000016999
                    example_receiver
    = PlayStarted s2' a2 (Await (1700000018000 - 1700000016999) AfterStartWait) /\
    startTime a2 = 1700000018000 /\
    config a2 = example_valid_config /\
    config (animateBackgroundColor example_theme example_valid_config 1700000018000 1)
    = example_valid_config /\
    color1Value a2 = "--color-info" /\
    color2Value a2 = "--color-error" /\
    defaultColor a2 = "--color-base-200".
Proof.
  destruct (handlePlayClick example_theme 5 example_browser example_draws 7 1700000013345
                            example_receiver) as [s | s | s | s1' a1 o1] eqn:E;
    try (vm_compute in E; discriminate).
  assert (Ha : a1 = animateBackgroundColor example_theme example_valid_config
                                           1700000018000 1).
  { vm_compute in E. injection E as _ <- _. reflexivity. }
  subst a1.
  apply (same_config_same_start example_theme 5 example_browser example_browser
                                example_draws example_draws 7 8 1700000013345
                                1700000016999 example_receiver example_receiver s1'
                                example_valid_config
                                (animateBackgroundColor example_theme example_valid_config
                                                        1700000018000 1)
                                o1).
  - exists "--color-info", "--color-error", "-.-.-.-.", 3.
    split; [reflexivity|]. cbn [In COLORS PATTERNS].
    repeat split; try tauto; try lia. discriminate.
  - reflexivity.
  - reflexivity.
  - lia.
  - lia.
  - exact E.
  - cbn. lia.
Defined.

(** ** AnimationEngine: whole cycles *)

Section Cycles.

Variable theme : string -> string.

Lemma reset_background_live (a : Animation) (w : World) :
  stale a (reset_background a w) = stale a w /\
  shouldPauseBackground (reset_background a w) = shouldPauseBackground w /\
  backgroundColor (reset_background a w) = defaultColor a.
Proof. repeat split. Qed.

(** The steps of a live, unpaused, uninterrupted loop from step [i + 1]
    on, without what follows the pattern. *)
Lemma run_steps_paints (fuel : nat) (a : Animation) (p : string) :
  pattern (config a) = Some p ->
  forall n i c t w,
    (S i + n = String.length p)%nat ->
    stale a w = false -> shouldPauseBackground w = false ->
    paints (run theme (S n) fuel a (AfterStep i c) t w)
    = expected_paints a p n (S i) t (toggle a c).
Proof.
  intros Hp. unfold run.
  induction n as [| n IH]; intros i c t w Hlen Hs Hpa.
  - rewrite run_with_one. cbn [resume]. fold (toggle a c).
    cbn [paints map time after expected_paints].
    rewrite (for_loop_complete fuel a t (S i) (toggle a c) p w Hp) by lia.
    reflexivity.
  - erewrite run_with_await; cycle 1.
    { cbn [resume]. fold (toggle a c).
      apply (for_loop_step fuel a t (S i) (toggle a c) p w Hp); [lia | exact Hs | exact Hpa]. }
    cbn [paints map time after expected_paints backgroundColor set_backgroundColor].
    f_equal. apply IH; [lia | exact Hs | exact Hpa].
Qed.

(** One flash of any pattern by a live, unpaused, uninterrupted loop that
    reaches its start instant [T]: the first character is painted with
    [color1] at [T], every further character with the other color at the
    instant the one before it ends ([.] lasts 250 ms, [-] 750 ms, any other
    character 0 ms), and the neutral color when the last one ends. *)
Theorem flash_paints_pattern (fuel : nat) (a : Animation) (p : string) (T : Z)
        (w : World) :
  pattern (config a) = Some p ->
  stale a w = false -> shouldPauseBackground w = false ->
  paints (run theme (S (String.length p)) fuel a AfterStartWait T w)
  = expected_paints a p (String.length p) 0 T (color1Value a).
Proof.
  intros Hp Hs Hpa.
  assert (Hs1 : stale a (start_flashing theme w) = false)
    by (rewrite start_flashing_stale; exact Hs).
  assert (Hp1 : shouldPauseBackground (start_flashing theme w) = false)
    by apply start_flashing_shouldPauseBackground.
  destruct (String.length p) as [| n] eqn:Hlen.
  - unfold run. rewrite run_with_one. cbn [resume].
    unfold after_start_wait. rewrite Hs, Hpa. cbn [orb].
    cbn [paints map time after expected_paints].
    rewrite (for_loop_complete fuel a T 0 (color1Value a) p _ Hp) by lia.
    reflexivity.
  - unfold run. erewrite run_with_await; cycle 1.
    { cbn [resume]. unfold after_start_wait. rewrite Hs, Hpa. cbn [orb].
      apply (for_loop_step fuel a T 0 (color1Value a) p _ Hp); [lia | exact Hs1 | exact Hp1]. }
    cbn [paints map time after expected_paints backgroundColor set_backgroundColor].
    f_equal.
    apply (run_steps_paints fuel a p Hp n 0 (color1Value a)); [lia | exact Hs1 | exact Hp1].
Qed.

(** The steps from step [i + 1] on, the wait for the next cycle and the
    [m] stretches after it. *)
Lemma run_steps_then (fuel : nat) (a : Animation) (p : string) (m : nat) :
  pattern (config a) = Some p ->
  forall n i c t w next,
    (S i + n = String.length p)%nat ->
    stale a w = false -> shouldPauseBackground w = false ->
    getNextStartTime fuel (steps_end p n (S i) t) (timeOffset (config a)) = Some next ->
    exists w',
      stale a w' = false /\ shouldPauseBackground w' = false /\
      paints (run theme (S n + m) fuel a (AfterStep i c) t w)
      = (expected_paints a p n (S i) t (toggle a c)
         ++ paints (run theme m fuel a AtEntry next w'))%list.
Proof.
  intros Hp. unfold run.
  induction n as [| n IH]; intros i c t w next Hlen Hs Hpa Hnext.
  - cbn [steps_end] in Hnext.
    exists (reset_background a w). split; [exact Hs | split; [exact Hpa|]].
    cbn [Nat.add].
    erewrite run_with_await; cycle 1.
    { cbn [resume]. fold (toggle a c). unfold for_loop. rewrite Hp.
      assert (E : (S i <? String.length p)%nat = false) by (apply Nat.ltb_ge; lia).
      rewrite E, Hnext.
      pose proof (next_start_after_now fuel t _ next Hnext) as [Hlt _].
      destruct (Z.gtb_spec (next - t) 0); [reflexivity | lia]. }
    pose proof (next_start_after_now fuel t _ next Hnext) as [Hlt _].
    replace (t + Z.max (next - t) 0) with next by lia.
    reflexivity.
  - cbn [steps_end] in Hnext.
    destruct (IH (S i) (toggle a c)
                 (t + Z.max (step_duration (String.get (S i) p)) 0)
                 (set_backgroundColor (toggle a c) w) next)
      as (w' & Hs' & Hpa' & Heq); [lia | exact Hs | exact Hpa | exact Hnext |].
    exists w'. split; [exact Hs' | split; [exact Hpa'|]].
    cbn [Nat.add].
    erewrite run_with_await; cycle 1.
    { cbn [resume]. fold (toggle a c).
      apply (for_loop_step fuel a t (S i) (toggle a c) p w Hp); [lia | exact Hs | exact Hpa]. }
    cbn [paints map time after expected_paints backgroundColor set_backgroundColor app].
    f_equal. exact Heq.
Qed.

Lemma table_pattern_lasts_four_seconds (p : string) (t : Z) :
  In p PATTERNS ->
  (0 < String.length p)%nat /\ steps_end p (String.length p) 0 t = t + 4000.
Proof.
  unfold PATTERNS. cbn [In].
  intros [<- | [<- | [<- | [<- | [<- | [<- | [<- | [<- | [<- | [<- | []]]]]]]]]]];
    (split; [cbn; lia|]);
    cbn [String.length steps_end String.get step_duration Ascii.eqb Bool.eqb];
    unfold Duration.DOT, Duration.DASH; lia.
Qed.

(** An uninterrupted loop flashes a table pattern every five seconds: a
    flash that starts at a scheduled instant [T] paints its steps, ends
    with the neutral color at [T + 4000], and the next flash begins with
    [color1] at [T + 5000]. *)
Theorem table_pattern_cycle (fuel : nat) (a : Animation) (p : string) (d T : Z)
        (w : World) :
  In p PATTERNS ->
  pattern (config a) = Some p -> timeOffset (config a) = Int d -> 0 <= d <= 9 ->
  0 <= T -> T mod 1000 = 0 -> on_schedule d T -> startTime a <= T ->
  stale a w = false -> shouldPauseBackground w = false -> (5 <= fuel)%nat ->
  steps_end p (String.length p) 0 T = T + 4000 /\
  paints (run theme (String.length p + 2) fuel a AfterStartWait T w)
  = (expected_paints a p (String.length p) 0 T (color1Value a)
     ++ [(T + 5000, color1Value a)])%list.
Proof.
  intros Hin Hp Hoff Hd HS Hwhole Hon Hstart Hs Hpa Hfuel.
  destruct (table_pattern_lasts_four_seconds p T Hin) as [Hpos Hend].
  split; [exact Hend|].
  assert (Hs1 : stale a (start_flashing theme w) = false)
    by (rewrite start_flashing_stale; exact Hs).
  assert (Hp1 : shouldPauseBackground (start_flashing theme w) = false)
    by apply start_flashing_shouldPauseBackground.
  destruct (String.length p) as [| n] eqn:Hlen; [lia|].
  cbn [steps_end] in Hend.
  assert (Hnext : getNextStartTime fuel
                    (steps_end p n 1 (T + Z.max (step_duration (String.get 0 p)) 0))
                    (timeOffset (config a)) = Some (T + 5000)).
  { rewrite Hend, Hoff. apply (next_start_period d T); auto; lia. }
  destruct (run_steps_then fuel a p 1 Hp n 0%nat (color1Value a)
              (T + Z.max (step_duration (String.get 0 p)) 0)
              (set_backgroundColor (color1Value a) (start_flashing theme w))
              (T + 5000))
    as (w' & Hs' & Hpa' & Heq); [lia | exact Hs1 | exact Hp1 | exact Hnext |].
  unfold run in *.
  replace (S n + 2)%nat with (S (S n + 1)) by lia.
  erewrite run_with_await; cycle 1.
  { cbn [resume]. unfold after_start_wait. rewrite Hs, Hpa. cbn [orb].
    apply (for_loop_step fuel a T 0 (color1Value a) p _ Hp); [lia | exact Hs1 | exact Hp1]. }
  cbn [paints map time after expected_paints backgroundColor set_backgroundColor app].
  f_equal. fold (paints (run_with theme (fun _ w => w) (S n + 1) fuel a
                                 (AfterStep 0 (color1Value a))
                                 (T + Z.max (step_duration (String.get 0 p)) 0)
                                 (set_backgroundColor (color1Value a)
                                                      (start_flashing theme w)))).
  rewrite Heq. f_equal.
  rewrite run_with_one. cbn [resume paints map time after].
  unfold runPattern. rewrite Hs', Hpa'.
  destruct (Z.gtb_spec (startTime a - (T + 5000)) 0); [lia|].
  unfold after_start_wait. rewrite Hs', Hpa'. cbn [orb].
  rewrite (for_loop_step fuel a (T + 5000) 0 (color1Value a) p _ Hp);
    [reflexivity | lia | rewrite start_flashing_stale; exact Hs'
     | apply start_flashing_shouldPauseBackground].
Qed.

End Cycles.

Lemma flash_paints_pattern_witness :
  paints (run example_theme (S (String.length "..-..-.-..")) 5 example_long_animation
              AfterStartWait 10000 example_countdown)
  = expected_paints example_long_animation "..-..-.-.." (String.length "..-..-.-..") 0
                    10000 (color1Value example_long_animation).
Proof.
  apply (flash_paints_pattern example_theme 5 example_long_animation "..-..-.-.." 10000
                              example_countdown); reflexivity.
Defined.

Lemma table_pattern_cycle_witness :
  steps_end "..-..-.-.." (String.length "..-..-.-..") 0 13000 = 13000 + 4000 /\
  paints (run example_theme (String.length "..-..-.-.." + 2) 5 example_long_animation
              AfterStartWait 13000 example_countdown)
  = (expected_paints example_long_animation "..-..-.-.." (String.length "..-..-.-..") 0
                     13000 (color1Value example_long_animation)
     ++ [(13000 + 5000, color1Value example_long_animation)])%list.
Proof.
  apply (table_pattern_cycle example_theme 5 example_long_animation "..-..-.-.." 3 13000
                             example_countdown);
    try reflexivity; try lia.
  - cbn [In PATTERNS]. tauto.
  - left. reflexivity.
  - cbn. lia.
Defined.

Lemma getNextStartTime_monotone_witness : 1700000013000 <= 1700000018000.
Proof.
  apply (getNextStartTime_monotone 3 1700000012345 1700000013345
                                   1700000013000 1700000018000);
    [lia | lia | reflexivity | reflexivity].
Defined.

Lemma resume_tracks_witness :
  pause_tracks_phase
    (fst (resume example_theme 5 example_animation AfterStartWait 10000 example_countdown)).
Proof.
  apply (resume_tracks example_theme 5 example_animation AfterStartWait 10000
                       example_countdown).
  unfold pause_tracks_phase. cbn. split; discriminate.
Defined.

(** ** The first Play of an initiator *)

Section FirstPlay.

Variable theme : string -> string.

Lemma share_url_truthy (origin pathname query : string) :
  truthy (Some (origin ++ pathname ++ "?" ++ query)) = true.
Proof. destruct origin; [destruct pathname|]; reflexivity. Qed.

(** The first Play of an initiator whose share succeeds: the configuration
    is the one drawn, its share URL decodes back to it, and countdown and
    animation start for it at the instant [getNextStartTime] gives for the
    drawn time offset. *)
Theorem initiator_first_play (fuel : nat) (b : Browser) (dr : Draws)
        (handle now : Z) (s : Session) :
  currentRole s = INITIATOR -> blinkConfig s = None ->
  browser_canShare b = true -> browser_shareResolves b = true ->
  (fst (draw_color1 dr) < 6)%nat -> (snd (draw_color1 dr) < 5)%nat ->
  (fst (draw_color2 dr) < 6)%nat -> (snd (draw_color2 dr) < 5)%nat ->
  (draw_pattern dr < 10)%nat -> (draw_offset dr < 5)%nat ->
  0 <= now -> (5 <= fuel)%nat ->
  exists startTime s',
    getNextStartTime 5 now (Int (Z.of_nat (draw_offset dr))) = Some startTime /\
    handlePlayClick theme fuel b dr handle now s
    = PlayStarted s'
        (animateBackgroundColor theme (drawn_config dr) startTime
                                (currentAnimationId (world s) + 1))
        (Await (startTime - now) AfterStartWait) /\
    blinkConfig s' = Some (drawn_config dr) /\
    currentState (world s') = COUNTDOWN /\
    decodeUrl ("?" ++ share_query (drawn_config dr)) = Some (drawn_config dr).
Proof.
  intros Hrole Hcfg Hcan Hres H1 H2 H3 H4 Hp Ht Hnow Hfuel.
  set (s1 := set_blinkConfig (Some (drawn_config dr)) s).
  assert (Hsame : handlePlayClick theme fuel b dr handle now s
                  = handlePlayClick theme fuel b dr handle now s1).
  { unfold handlePlayClick at 1. rewrite Hcfg, Hrole. cbn [Role_eqb].
    fold s1. cbn [blinkConfig s1 set_blinkConfig generateShareUrl].
    unfold tryShare. rewrite Hcan, Hres.
    unfold share_query. rewrite share_url_truthy. reflexivity. }
  assert (Hoff : timeOffset (drawn_config dr) = Int (Z.of_nat (draw_offset dr)))
    by reflexivity.
  destruct (play_starts theme fuel b dr handle now (Z.of_nat (draw_offset dr)) s1
                        (drawn_config dr) eq_refl Hoff)
    as (st & s' & n & Hst & Hplay & Hc' & _ & Hstate & _); [lia | lia | lia |].
  exists st, s'. rewrite Hsame.
  split; [exact Hst | split; [exact Hplay | split; [exact Hc' | split; [exact Hstate|]]]].
  apply table_member_decodes.
  destruct dr as [[d1 d2] [d3 d4] dp dt].
  cbn [draw_color1 draw_color2 draw_pattern draw_offset fst snd] in *.
  unfold drawn_config, new_blinkConfig.
  cbn [draw_color1 draw_color2 draw_pattern draw_offset fst snd].
  assert (D1 : (d1 = 0 \/ d1 = 1 \/ d1 = 2 \/ d1 = 3 \/ d1 = 4 \/ d1 = 5)%nat) by lia.
  assert (D3 : (d3 = 0 \/ d3 = 1 \/ d3 = 2 \/ d3 = 3 \/ d3 = 4 \/ d3 = 5)%nat) by lia.
  assert (D4 : (d4 = 0 \/ d4 = 1 \/ d4 = 2 \/ d4 = 3 \/ d4 = 4)%nat) by lia.
  assert (Hpat : exists p, getRandomPattern dp = Some p /\ In p PATTERNS).
  { unfold getRandomPattern.
    destruct (nth_error PATTERNS dp) as [p |] eqn:E.
    - exists p. split; [reflexivity|]. eapply nth_error_In. exact E.
    - apply nth_error_None in E. cbn in E. lia. }
  destruct Hpat as (p & -> & Hpat).
  destruct D1 as [-> | [-> | [-> | [-> | [-> | ->]]]]];
  destruct D3 as [-> | [-> | [-> | [-> | [-> | ->]]]]];
  destruct D4 as [-> | [-> | [-> | [-> | ->]]]];
    cbn [getRandomColors pair_color1 pair_color2 nth_error COLORS filter
         opt_string_eqb String.eqb Ascii.eqb Bool.eqb negb];
    (apply in_table_configs; [cbn; tauto | cbn; tauto | exact Hpat | lia]).
Qed.

End FirstPlay.

Lemma initiator_first_play_witness :
  exists startTime s',
    getNextStartTime 5 1700000013345 (Int (Z.of_nat (draw_offset example_draws)))
    = Some startTime /\
    handlePlayClick example_theme 5 example_sharing_browser example_draws 7 1700000013345
                    example_initiator
    = PlayStarted s'
        (animateBackgroundColor example_theme (drawn_config example_draws) startTime
                                (currentAnimationId (world example_initiator) + 1))
        (Await (startTime - 1700000013345) AfterStartWait) /\
    blinkConfig s' = Some (drawn_config example_draws) /\
    currentState (world s') = COUNTDOWN /\
    decodeUrl ("?" ++ share_query (drawn_config example_draws))
    = Some (drawn_config example_draws).
Proof.
  apply (initiator_first_play example_theme 5 example_sharing_browser example_draws 7
                              1700000013345 example_initiator);
    try reflexivity; cbn; lia.
Defined.

(** ** Generation of a configuration *)

(** C10. The invariant [color1 != color2] is not kept at generation time:
    [handlePlayClick] reads [color1] from one [getRandomColors()] pair and
    [color2] from another. With the first pair drawn at index 0 and the
    second at index 1, then index 0 of the five remaining colors, all
    draws within their bounds, the first Play of an initiator stores a
    configuration whose two colors are both [--color-secondary]; and
    [decodeUrl], which compares nothing, returns that same configuration
    from its share query. *)
Theorem generated_config_equal_colors :
  draw_color1 example_draws = (0%nat, 0%nat) /\
  draw_color2 example_draws = (1%nat, 0%nat) /\
  pair_color1 (getRandomColors 0 0) = Some "--color-secondary" /\
  pair_color2 (getRandomColors 1 0) = Some "--color-secondary" /\
  blinkConfig (session_of (handlePlayClick example_theme 5 example_sharing_browser
                                           example_draws 7 1700000013345
                                           example_initiator))
  = Some (drawn_config example_draws) /\
  color1 (drawn_config example_draws) = Some "--color-secondary" /\
  color2 (drawn_config example_draws) = Some "--color-secondary" /\
  share_query (drawn_config example_draws) = "c1=0&c2=0&p=4&t=3" /\
  decodeUrl "?c1=0&c2=0&p=4&t=3" = Some (drawn_config example_draws).
Proof. repeat split; vm_compute; reflexivity. Qed.
